(** * pytest-smart-runner: the test-impact mapper ([mapper.py])

    A shallow embedding of [TestMapper] and of the parts of Python's [str],
    [pathlib] and [ast] it relies on, followed by the properties of the
    mapping engine.

    Layout: Python strings, paths, syntax trees, the file system, the
    mapper itself, the strategies as the specification words them, and
    then the lemmas and theorems. *)

From Stdlib Require Import String Ascii.
From stdpp Require Import gmap strings list.

Local Open Scope string_scope.
Local Open Scope list_scope.

(** ** Exceptions and results *)

(** The exceptions that the modelled code can meet.  [SyntaxError] and
    [UnicodeDecodeError] stand for these classes and their subclasses
    (what an [except] clause naming them catches), [ValueError] for its
    instances that are not a [UnicodeDecodeError], and [OtherError] for
    any further class outside these, by its name. *)
Inductive exn :=
| FileNotFoundError
| IsADirectoryError
| UnicodeDecodeError
| SyntaxError
| NotADirectoryError
| PermissionError
| ValueError
| RecursionError
| OtherError (name : string).

(** A call either returns a value or raises. *)
Inductive result (A : Type) :=
| Ok (a : A)
| Raise (e : exn).
Arguments Ok {A} a.
Arguments Raise {A} e.

Definition result_bind {A B} (r : result A) (k : A → result B) : result B :=
  match r with
  | Ok a => k a
  | Raise e => Raise e
  end.

Notation "'let*' x ':=' r 'in' k" := (result_bind r (fun x => k))
  (at level 10, x name, r at level 100, k at level 200, only parsing).

(** ** Python [str] methods *)
Module PyStr.

(** [s.startswith(p)] *)
Fixpoint startswith (s p : string) {struct p} : bool :=
  match p, s with
  | EmptyString, _ => true
  | String _ _, EmptyString => false
  | String b p', String a s' => if Ascii.eqb a b then startswith s' p' else false
  end.

(** [s.endswith(p)]: some suffix of [s] is [p]. *)
Fixpoint endswith (s p : string) : bool :=
  String.eqb s p ||
  match s with
  | EmptyString => false
  | String _ s' => endswith s' p
  end.

(** [bool(s)]: a string is truthy when it is not empty. *)
Definition truthy (s : string) : bool :=
  match s with
  | EmptyString => false
  | String _ _ => true
  end.

(** [s.replace(old, new)] for a non-empty [old]: occurrences are found
    from the left and do not overlap.  [skip] counts the characters of
    an occurrence just replaced that are still to be passed over. *)
Fixpoint replace_from (old new : string) (skip : nat) (s : string) : string :=
  match s with
  | EmptyString => EmptyString
  | String c s' =>
      match skip with
      | S k => replace_from old new k s'
      | O =>
          if startswith s old
          then new +:+ replace_from old new (String.length old - 1) s'
          else String c (replace_from old new 0 s')
      end
  end.

Definition replace (s old new : string) : string := replace_from old new 0 s.

(** [s.split(sep)] for a one-character separator; never the empty list. *)
Fixpoint split (s : string) (sep : ascii) : list string :=
  match s with
  | EmptyString => [EmptyString]
  | String c s' =>
      if Ascii.eqb c sep then EmptyString :: split s' sep
      else match split s' sep with
           | h :: t => String c h :: t
           | [] => [String c EmptyString]
           end
  end.

(** [s.split(sep)[0]] *)
Definition split_first (s : string) (sep : ascii) : string :=
  default EmptyString (split s sep !! 0%nat).

(** [sep.join(l)] *)
Definition join (sep : string) (l : list string) : string := String.concat sep l.

(** [s.rfind(c)] for a one-character [c]; [None] stands for Python's -1. *)
Fixpoint rfind (s : string) (c : ascii) : option nat :=
  match s with
  | EmptyString => None
  | String a s' =>
      match rfind s' c with
      | Some i => Some (S i)
      | None => if Ascii.eqb a c then Some 0%nat else None
      end
  end.

(** [s[:i]] *)
Definition slice_to (s : string) (i : nat) : string := String.substring 0 i s.

(** [s[i:]] *)
Definition slice_from (s : string) (i : nat) : string :=
  String.substring i (String.length s - i) s.

(** The character [c] occurs in [s]. *)
Fixpoint contains (s : string) (c : ascii) : bool :=
  match s with
  | EmptyString => false
  | String a s' => Ascii.eqb a c || contains s' c
  end.

End PyStr.

(** ** [pathlib] (POSIX flavour) *)
Module pathlib.

(** A pure path: whether it is anchored at [/], and its segments.
    [Path(".")] has no segment.  Two paths are equal when both agree,
    which is how [pathlib] compares and hashes them. *)
Record Path := mkPath { anchored : bool; segments : list string }.

#[global] Instance Path_eq_dec : EqDecision Path.
Proof. solve_decision. Defined.

#[global] Instance Path_countable : Countable Path.
Proof.
  apply (inj_countable' (λ p, (anchored p, segments p))
                        (λ x, mkPath (fst x) (snd x))).
  by intros [].
Defined.

(** [Path] built from a list of plain names (the star-argument call). *)
Definition of_segments (segs : list string) : Path := mkPath false segs.

(** [Path(s)]: split at [/], drop empty and [.] segments. *)
Definition of_string (s : string) : Path :=
  mkPath (PyStr.startswith s "/")
         (filter (λ x, x ≠ "" ∧ x ≠ ".") (PyStr.split s "/")).

(** [p.parts] *)
Definition parts (p : Path) : list string :=
  if anchored p then "/" :: segments p else segments p.

(** [p.name] *)
Definition name (p : Path) : string := default "" (last (segments p)).

(** [p.stem]: the name up to its last dot, when that dot is neither the
    first nor the last character. *)
Definition stem (p : Path) : string :=
  let name := name p in
  match PyStr.rfind name "." with
  | Some i =>
      if bool_decide (0 < i)%nat && bool_decide (i < String.length name - 1)%nat
      then PyStr.slice_to name i
      else name
  | None => name
  end.

(** [p.suffix]: the name from its last dot on, under the same condition. *)
Definition suffix (p : Path) : string :=
  let name := name p in
  match PyStr.rfind name "." with
  | Some i =>
      if bool_decide (0 < i)%nat && bool_decide (i < String.length name - 1)%nat
      then PyStr.slice_from name i
      else ""
  | None => ""
  end.

(** [p / q] for a path [q] *)
Definition joinpath (p q : Path) : Path :=
  if anchored q then q else mkPath (anchored p) (segments p ++ segments q).

(** [p / s] for a string [s] that is a single file or directory name. *)
Definition truediv (p : Path) (s : string) : Path :=
  mkPath (anchored p) (segments p ++ [s]).

(** [p.relative_to(other)]; [None] stands for the [ValueError] raised
    when [other] is not a leading part of [p]. *)
Definition relative_to (p other : Path) : option Path :=
  if bool_decide (anchored p = anchored other) &&
     bool_decide (take (length (segments other)) (segments p) = segments other)
  then Some (mkPath false (drop (length (segments other)) (segments p)))
  else None.

(** [p.parent] *)
Definition parent (p : Path) : Path :=
  mkPath (anchored p) (take (length (segments p) - 1) (segments p)).

(** [q] is [p] or one of [p.parents]. *)
Definition ancestors (p : Path) : list Path :=
  (λ k, mkPath (anchored p) (take k (segments p))) <$> seq 0 (S (length (segments p))).

End pathlib.
Export pathlib.

Declare Scope path_scope.
Delimit Scope path_scope with path.
Bind Scope path_scope with Path.
Infix "/" := truediv : path_scope.

(** ** [ast]: the part of a syntax tree that import extraction looks at *)
Module ast.

(** [ast.alias]: [import name as asname]. *)
Record alias := mkAlias { alias_name : string; asname : option string }.

(** A node is an [Import] statement, an [ImportFrom] statement
    ([module] is [None] for [from . import x]), or any other node
    ([Module], [FunctionDef], [If], [Try], ...) with its child nodes. *)
Unset Elimination Schemes.
Inductive node :=
| Import (names : list alias)
| ImportFrom (module : option string) (names : list alias) (level : nat)
| Node (kind : string) (children : list node).
Set Elimination Schemes.

(** [ast.walk]: the node and all its descendants.  The library yields
    them "in no specified order"; the mapper only collects a set. *)
Fixpoint walk (n : node) : list node :=
  n :: match n with
       | Node _ children => flat_map walk children
       | _ => []
       end.

(** The statements of a module body, for a [Module] root. *)
Definition body (tree : node) : list node :=
  match tree with
  | Node _ children => children
  | _ => []
  end.

Definition is_import (n : node) : bool :=
  match n with
  | Import _ | ImportFrom _ _ _ => true
  | Node _ _ => false
  end.

(** [n] is [t] or lies somewhere below it. *)
Inductive within (n : node) : node → Prop :=
| within_self : within n n
| within_child kind children c :
    c ∈ children → within n c → within n (Node kind children).

End ast.
Export ast.

(** ** The file system the mapper runs against *)

(** What opening, reading and parsing a regular file leads to. *)
Inductive file :=
| Undecodable            (* [f.read()] raises [UnicodeDecodeError] *)
| Malformed              (* [ast.parse] raises [SyntaxError] *)
| Source (tree : node)   (* [ast.parse] returns [tree] *)
| Unreadable (e : exn).  (* one of the three raises [e]: [PermissionError],
                            [ValueError] for a NUL byte, [RecursionError], ... *)

(** Regular files by path, directories that may hold no file, and
    symbolic links whose target is missing.  Paths are taken as the
    program writes them. *)
Record FileSystem := mkFS {
  fs_files : gmap Path file;
  fs_dirs : gset Path;
  fs_dangling : gset Path;
}.

(** Everything that exists: the files, the directories, and every
    directory on the way to one of them. *)
Definition fs_entries (fs : FileSystem) : gset Path :=
  list_to_set (elements (dom (fs_files fs) ∪ fs_dirs fs) ≫= ancestors).

(** [p.exists()]: false for a dangling link and for whatever else is
    not an entry. *)
Definition path_exists (fs : FileSystem) (p : Path) : bool :=
  bool_decide (p ∈ fs_entries fs).

(** A regular file lies on the way to [p]. *)
Definition blocked (fs : FileSystem) (p : Path) : bool :=
  bool_decide (Exists (λ q, q ≠ p ∧ is_Some (fs_files fs !! q)) (ancestors p)).

(** [p.is_dir()] *)
Definition is_dir (fs : FileSystem) (p : Path) : bool :=
  path_exists fs p && bool_decide (fs_files fs !! p = None).

(** [with open(p, 'r', encoding='utf-8') as f: ast.parse(f.read())] *)
Definition open_and_parse (fs : FileSystem) (p : Path) : result node :=
  match fs_files fs !! p with
  | Some (Source tree) => Ok tree
  | Some Malformed => Raise SyntaxError
  | Some Undecodable => Raise UnicodeDecodeError
  | Some (Unreadable e) => Raise e
  | None =>
      if path_exists fs p then Raise IsADirectoryError
      else if blocked fs p then Raise NotADirectoryError
      else Raise FileNotFoundError
  end.

(** A glob pattern with one star, [pre*suf], against a file name. *)
Definition fnmatch (name pre suf : string) : bool :=
  bool_decide (String.length pre + String.length suf ≤ String.length name)%nat
  && PyStr.startswith name pre && PyStr.endswith name suf.

(** [dir.rglob(pre*suf)]: nothing unless [dir] is a directory; then every
    entry strictly below it whose name matches.  An entry is what a
    directory lists: a file, a directory or a dangling link, in a
    directory that is one and with no regular file on the way to it. *)
Definition rglob (fs : FileSystem) (dir : Path) (pre suf : string) : gset Path :=
  if is_dir fs dir
  then filter (λ q, is_Some (relative_to q dir) ∧ q ≠ dir
                    ∧ fnmatch (name q) pre suf = true
                    ∧ is_dir fs (parent q) = true
                    ∧ blocked fs q = false)
              (fs_entries fs ∪ fs_dangling fs)
  else ∅.

(** ** [class TestMapper] *)

(** The mapper's state: [self.project_root].  ([self.import_map] is
    never read or written after construction.) *)
Record TestMapper := mkTestMapper { project_root : Path }.

(** [TestMapper(project_root)] for a given, non-empty root string.
    (Without one Python takes [os.getcwd()], an anchored path.) *)
Definition new_TestMapper (root : string) : TestMapper :=
  mkTestMapper (of_string root).

Section mapper.
Variable self : TestMapper.
Variable fs : FileSystem.

(** [find_test_files] *)
Definition find_test_files (test_dirs : option (list string)) : gset Path :=
  let test_dirs := default ["tests"; "test"] test_dirs in
  foldl (λ test_files test_dir,
           let test_path := joinpath (project_root self) (of_string test_dir) in
           if path_exists fs test_path
           then test_files ∪ rglob fs test_path "test_" ".py"
                           ∪ rglob fs test_path "" "_test.py"
           else test_files)
        ∅ test_dirs.

(** The body of the [for node in ast.walk(tree)] loop. *)
Definition collect_import (imports : gset string) (n : node) : gset string :=
  match n with
  | Import names =>
      foldl (λ imports a, imports ∪ {[PyStr.split_first (alias_name a) "."]})
            imports names
  | ImportFrom (Some module) _ _ =>
      if PyStr.truthy module
      then imports ∪ {[PyStr.split_first module "."]}
      else imports
  | _ => imports
  end.

(** [extract_imports]: only [SyntaxError] and [UnicodeDecodeError] are
    caught. *)
Definition extract_imports (file_path : Path) : result (gset string) :=
  match open_and_parse fs file_path with
  | Raise SyntaxError | Raise UnicodeDecodeError => Ok ∅
  | Raise e => Raise e
  | Ok tree => Ok (foldl collect_import ∅ (walk tree))
  end.

(** [if parts and parts[0] == 'src': parts = parts[1:]] *)
Definition drop_src (parts : list string) : list string :=
  match parts with
  | p0 :: rest => if bool_decide (p0 = "src") then rest else parts
  | [] => parts
  end.

(** [get_module_path]; the [ValueError] of [relative_to] is caught. *)
Definition get_module_path (changed_file : Path) : option string :=
  match relative_to changed_file (project_root self) with
  | None => None
  | Some rel_path =>
      let parts := drop_src (parts rel_path) in
      match last parts with
      | Some final =>
          let parts := <[(length parts - 1)%nat := PyStr.replace final ".py" ""]> parts in
          Some (PyStr.join "." parts)
      | None => None
      end
  end.

(** [_is_test_file] *)
Definition _is_test_file (file_path : Path) : bool :=
  let name := name file_path in
  PyStr.startswith name "test_" || PyStr.endswith name "_test.py".

(** [_get_test_candidates] *)
Definition _get_test_candidates (source_file : Path) : list Path :=
  let filename := stem source_file in
  let patterns := ["test_" +:+ filename +:+ ".py"; filename +:+ "_test.py"] in
  foldl (λ candidates test_dir,
     let test_path := (project_root self / test_dir)%path in
     if path_exists fs test_path then
       foldl (λ candidates pattern,
          let candidates := candidates ++ [(test_path / pattern)%path] in
          match relative_to source_file (project_root self) with
          | Some rel_path =>
              let parts := drop_src (parts rel_path) in
              if bool_decide (1 < length parts)%nat
              then let subdir := of_segments (take (length parts - 1) parts) in
                   candidates ++ [(joinpath test_path subdir / pattern)%path]
              else candidates
          | None => candidates
          end)
         candidates patterns
     else candidates)
    [] ["tests"; "test"].

(** The inner loop of strategy 3, with its [break]. *)
Fixpoint match_changed_modules (imports : gset string) (test_file : Path)
    (changed_modules : list string) (affected_tests : gset Path) : gset Path :=
  match changed_modules with
  | [] => affected_tests
  | changed_module :: rest =>
      let module_root := PyStr.split_first changed_module "." in
      if bool_decide (module_root ∈ imports)
      then affected_tests ∪ {[test_file]}
      else match_changed_modules imports test_file rest affected_tests
  end.

(** The outer loop of strategy 3; an exception of [extract_imports]
    leaves the loop and the function. *)
Fixpoint scan_test_files (changed_modules : gset string) (test_files : list Path)
    (affected_tests : gset Path) : result (gset Path) :=
  match test_files with
  | [] => Ok affected_tests
  | test_file :: rest =>
      let* imports := extract_imports test_file in
      scan_test_files changed_modules rest
        (match_changed_modules imports test_file (elements changed_modules) affected_tests)
  end.

(** [find_affected_tests].  Python walks a set in hash order and
    [elements] fixes one order: the returned set does not depend on it
    (see [find_affected_tests_union]); only which exception escapes,
    when two files fail in different ways, does. *)
Definition find_affected_tests (changed_files : gset Path)
    (test_files : option (gset Path)) : result (gset Path) :=
  let test_files :=
    match test_files with
    | None => find_test_files None
    | Some test_files => test_files
    end in
  let affected_tests : gset Path := ∅ in
  (* Strategy 1: direct test file changes *)
  let affected_tests :=
    foldl (λ affected_tests changed_file,
             if _is_test_file changed_file
             then affected_tests ∪ {[changed_file]}
             else affected_tests)
          affected_tests (elements changed_files) in
  (* Strategy 2: naming convention mapping *)
  let affected_tests :=
    foldl (λ affected_tests changed_file,
             if negb (_is_test_file changed_file)
             then foldl (λ affected_tests candidate,
                           if bool_decide (candidate ∈ test_files)
                           then affected_tests ∪ {[candidate]}
                           else affected_tests)
                        affected_tests (_get_test_candidates changed_file)
             else affected_tests)
          affected_tests (elements changed_files) in
  (* Strategy 3: import analysis *)
  let changed_modules : gset string :=
    foldl (λ changed_modules changed_file,
             match get_module_path changed_file with
             | Some module_path =>
                 if PyStr.truthy module_path
                 then changed_modules ∪ {[module_path]}
                 else changed_modules
             | None => changed_modules
             end)
          ∅ (elements changed_files) in
  scan_test_files changed_modules (elements test_files) affected_tests.

End mapper.

(** [TestMapper.__init__]: [Path(project_root or os.getcwd())], with
    [cwd] what [os.getcwd()] returns. *)
Definition TestMapper_init (cwd : string) (project_root : option string) : TestMapper :=
  mkTestMapper
    (of_string match project_root with
               | Some root => if PyStr.truthy root then root else cwd
               | None => cwd
               end).

(** ** [class GitChangeAnalyzer] ([analyzer.py]) *)
Module analyzer.

(** The exceptions of GitPython the analyzer handles, and the
    [ValueError] it raises itself. *)
Inductive error :=
| BadName
| GitCommandError
| ValueError.

Inductive outcome (A : Type) :=
| Returns (a : A)
| Raises (e : error).
Arguments Returns {A} a.
Arguments Raises {A} e.

Definition outcome_bind {A B} (r : outcome A) (k : A → outcome B) : outcome B :=
  match r with
  | Returns a => k a
  | Raises e => Raises e
  end.

(** [git.Diff]: the two sides of one changed entry. *)
Record Diff := mkDiff { a_path : option string; b_path : option string }.

(** What the analyzer asks of the repository:
    [repo.index.diff(other)], [repo.untracked_files],
    [repo.commit(sha).diff('HEAD')] and
    [repo.git.diff(revisions, name_only=True)]. *)
Record Repo := mkRepo {
  index_diff : option string → outcome (list Diff);
  untracked_files : list string;
  commit_diff_HEAD : string → outcome (list Diff);
  git_diff_name_only : string → outcome string;
}.

(** [if path: changed_files.add(Path(path))] *)
Definition add_path (changed_files : gset Path) (path : option string) : gset Path :=
  match path with
  | Some s => if PyStr.truthy s then changed_files ∪ {[of_string s]} else changed_files
  | None => changed_files
  end.

(** The loop adding both sides of every diff. *)
Definition add_both_paths (changed_files : gset Path) (diffs : list Diff) : gset Path :=
  foldl (λ changed_files diff,
           add_path (add_path changed_files (a_path diff)) (b_path diff))
        changed_files diffs.

(** The loop of the [BadName] handler, adding the [a_path] side only. *)
Definition add_a_paths (changed_files : gset Path) (diffs : list Diff) : gset Path :=
  foldl (λ changed_files diff, add_path changed_files (a_path diff))
        changed_files diffs.

(** [{f for f in changed_files if f.suffix == '.py'}] *)
Definition python_files (changed_files : gset Path) : gset Path :=
  filter (λ f, suffix f = ".py") changed_files.

Section analyzer_methods.
Variable repo : Repo.

(** [get_changed_files] *)
Definition get_changed_files (base : string)
    (include_untracked include_staged include_unstaged : bool) : outcome (gset Path) :=
  let changed_files : gset Path := ∅ in
  outcome_bind
    (if include_staged
     then match index_diff repo (Some base) with
          | Returns diff_staged => Returns (add_both_paths changed_files diff_staged)
          | Raises BadName =>
              outcome_bind (index_diff repo None)
                (λ diff_staged, Returns (add_a_paths changed_files diff_staged))
          | Raises e => Raises e
          end
     else Returns changed_files)
    (λ changed_files,
  outcome_bind
    (if include_unstaged
     then outcome_bind (index_diff repo None)
            (λ diff_unstaged, Returns (add_both_paths changed_files diff_unstaged))
     else Returns changed_files)
    (λ changed_files,
  let changed_files :=
    if include_untracked
    then foldl (λ changed_files file_path, changed_files ∪ {[of_string file_path]})
               changed_files (untracked_files repo)
    else changed_files in
  Returns (python_files changed_files))).

(** [get_changed_files_since_commit] *)
Definition get_changed_files_since_commit (commit_sha : string) : outcome (gset Path) :=
  match commit_diff_HEAD repo commit_sha with
  | Returns diff => Returns (python_files (add_both_paths ∅ diff))
  | Raises BadName => Raises ValueError
  | Raises e => Raises e
  end.

(** [get_changed_files_between_branches] *)
Definition get_changed_files_between_branches (base_branch target_branch : string)
    : outcome (gset Path) :=
  match git_diff_name_only repo (base_branch +:+ "..." +:+ target_branch) with
  | Returns diff =>
      let changed_files : gset Path :=
        list_to_set (of_string <$> filter (λ f, PyStr.truthy f = true)
                                          (PyStr.split diff "010"%char)) in
      Returns (python_files changed_files)
  | Raises GitCommandError => Raises ValueError
  | Raises e => Raises e
  end.

End analyzer_methods.

(** A name the repository reports: a side of a diff it returns, an
    untracked file, or a line of a name-only diff. *)
Definition reported (repo : Repo) (s : string) : Prop :=
  (∃ other diffs d, index_diff repo other = Returns diffs ∧ d ∈ diffs
                    ∧ (a_path d = Some s ∨ b_path d = Some s))
  ∨ s ∈ untracked_files repo
  ∨ (∃ sha diffs d, commit_diff_HEAD repo sha = Returns diffs ∧ d ∈ diffs
                    ∧ (a_path d = Some s ∨ b_path d = Some s))
  ∨ (∃ revisions diff, git_diff_name_only repo revisions = Returns diff
                       ∧ s ∈ PyStr.split diff "010"%char).

(** The path that one side of a diff contributes, if any. *)
Definition side_path (path : option string) (p : Path) : Prop :=
  ∃ s, path = Some s ∧ s ≠ "" ∧ p = of_string s.

End analyzer.

(** ** The selector as the specification words it

    The three strategies, each computed from the inputs alone, and the
    predicates of the specification.  These follow the specification's
    text; the theorems below compare them with the code above. *)
Section specification.
Variable self : TestMapper.
Variable fs : FileSystem.

(** Strategy A, direct edit: the changed files that are test files. *)
Definition strategy_direct (changed_files : gset Path) : gset Path :=
  filter (λ f, _is_test_file f = true) changed_files.

(** Strategy B, naming convention: the candidates of the changed files
    that are not test files, as far as they are in [test_files]. *)
Definition strategy_naming (changed_files test_files : gset Path) : gset Path :=
  set_bind (λ f, list_to_set (_get_test_candidates self fs f) ∩ test_files)
           (filter (λ f, _is_test_file f = false) changed_files).

(** The root segments of the module identifiers of the changed files
    that resolve (to a name that is not empty). *)
Definition changed_module_roots (changed_files : gset Path) : gset string :=
  list_to_set
    (omap (λ f, match get_module_path self f with
                | Some m => if PyStr.truthy m then Some (PyStr.split_first m ".") else None
                | None => None
                end)
          (elements changed_files)).

(** The import set of every file of a list. *)
Fixpoint import_sets (files : list Path) : result (list (Path * gset string)) :=
  match files with
  | [] => Ok []
  | f :: rest =>
      let* imports := extract_imports fs f in
      let* others := import_sets rest in
      Ok ((f, imports) :: others)
  end.

(** Strategy C, import reachability: the test files whose import set
    meets the changed module roots. *)
Definition strategy_imports (changed_files test_files : gset Path) : result (gset Path) :=
  let* table := import_sets (elements test_files) in
  Ok (list_to_set
        (fst <$> filter (λ entry, snd entry ∩ changed_module_roots changed_files ≠ ∅) table)).

(** The union of the three. *)
Definition union_of_strategies (changed_files test_files : gset Path) : result (gset Path) :=
  let* by_imports := strategy_imports changed_files test_files in
  Ok (strategy_direct changed_files ∪ strategy_naming changed_files test_files ∪ by_imports).

(** [extract_imports] returns on every file of the set. *)
Definition imports_extracted (test_files : gset Path) : Prop :=
  ∀ t, t ∈ test_files → ∃ imports, extract_imports fs t = Ok imports.

End specification.

(** The test-file predicate in the specification's words: the name starts
    with [test_], or ends with [_test] before its extension. *)
Definition name_convention_test_file (p : Path) : bool :=
  PyStr.startswith (name p) "test_" || PyStr.endswith (stem p) "_test".

(** The import statements at the top level of a module. *)
Definition top_level_imports (tree : node) : list node :=
  filter (λ n, is_import n = true) (body tree).

(** The root name [x] is referred to by the import statement [n]:
    [import x.y as z], or [from x.y import ...] with a module name. *)
Definition imported_root (n : node) (x : string) : Prop :=
  match n with
  | Import names => ∃ a, a ∈ names ∧ x = PyStr.split_first (alias_name a) "."
  | ImportFrom (Some module) _ _ => module ≠ "" ∧ x = PyStr.split_first module "."
  | _ => False
  end.

(** A path below the project root, from its segments relative to it. *)
Definition under_root (self : TestMapper) (rel : list string) : Path :=
  joinpath (project_root self) (of_segments rel).

(** A relative location with dot-free names: no directory name has a
    dot, and the file name is a dot-free stem followed by [.py]. *)
Definition dot_free_location (dirs : list string) (stem : string) : Prop :=
  Forall (λ d, PyStr.contains d "." = false) dirs ∧ PyStr.contains stem "." = false.

(** ** A sample project *)

Definition sample_mapper : TestMapper := new_TestMapper ".".

Definition sample_module (statements : list node) : node := Node "Module" statements.

(** [def helper(): import os.path], the only import being inside the
    function body. *)
Definition nested_import_module : node :=
  sample_module [Node "FunctionDef" [Node "arguments" []; Import [mkAlias "os.path" None]]].

(** [from . import x] at the top level and [from .. import y] inside a
    function. *)
Definition relative_import_module : node :=
  sample_module [ImportFrom None [mkAlias "x" None] 1;
                 Node "FunctionDef" [ImportFrom None [mkAlias "y" None] 2]].

(** A file system with the single regular file [p]. *)
Definition one_file (p : string) (f : file) : FileSystem :=
  mkFS {[ of_string p := f ]} ∅ ∅.

(** A source file, four test files that parse, one with a syntax error
    and one that is not UTF-8. *)
Definition sample_fs : FileSystem :=
  mkFS (list_to_map
          [(of_string "src/pkg/foo.py", Source (sample_module []));
           (of_string "tests/pkg/test_foo.py",
              Source (sample_module [Import [mkAlias "os" None]]));
           (of_string "tests/test_api.py",
              Source (sample_module [ImportFrom (Some "pkg.sub") [mkAlias "f" None] 0]));
           (of_string "tests/test_other.py",
              Source (sample_module [Import [mkAlias "json" None]]));
           (of_string "tests/test_shared.py",
              Source (sample_module [ImportFrom (Some "tests.conftest") [mkAlias "db" None] 0]));
           (of_string "tests/test_broken.py", Malformed);
           (of_string "tests/test_latin1.py", Undecodable)])
       ∅ ∅.

(** A project with its tests in [lib/tests], one of them a dangling
    link. *)
Definition linked_fs : FileSystem :=
  mkFS {[ of_string "lib/tests/unit/test_core.py" := Source (sample_module []) ]}
       ∅
       {[ of_string "lib/tests/unit/test_link.py" ]}.

(** A repository with one staged change, one unstaged new test, two
    untracked files, one known commit and one pair of branches. *)
Definition sample_repo : analyzer.Repo :=
  analyzer.mkRepo
    (λ other,
       if bool_decide (other = Some "HEAD")
       then analyzer.Returns
              [analyzer.mkDiff (Some "src/pkg/foo.py") (Some "src/pkg/foo.py");
               analyzer.mkDiff (Some "README.md") (Some "README.md")]
       else if bool_decide (other = None)
       then analyzer.Returns [analyzer.mkDiff (Some "tests/test_new.py") None]
       else analyzer.Raises analyzer.BadName)
    ["notes.txt"; "src/pkg/new.py"]
    (λ sha,
       if bool_decide (sha = "abc123")
       then analyzer.Returns [analyzer.mkDiff (Some "src/pkg/old.py") (Some "src/pkg/foo.py")]
       else analyzer.Raises analyzer.BadName)
    (λ revisions,
       if bool_decide (revisions = "main...HEAD")
       then analyzer.Returns
              ("src/pkg/foo.py" +:+ String "010" ("README.md" +:+ String "010" ""))
       else analyzer.Raises analyzer.GitCommandError).

Definition sample_tests : gset Path :=
  {[ of_string "tests/pkg/test_foo.py"; of_string "tests/test_api.py";
     of_string "tests/test_other.py"; of_string "tests/test_shared.py";
     of_string "tests/test_broken.py"; of_string "tests/test_latin1.py" ]}.

(** * Properties *)

Set Warnings "-clear-no-such-hyp".

(** Closes an equation between closed terms by evaluating both sides. *)
Ltac vm_refl :=
  lazymatch goal with |- _ = ?rhs => vm_cast_no_check (eq_refl rhs) end.

(** ** Strings *)
Section string_facts.
Import PyStr.

Lemma str_app_cons a s t : String a s +:+ t = String a (s +:+ t).
Proof. reflexivity. Qed.

Lemma str_app_nil_l t : "" +:+ t = t.
Proof. reflexivity. Qed.

Lemma str_app_nil_r s : s +:+ "" = s.
Proof. induction s as [|a s IH]; [done |]. by rewrite str_app_cons, IH. Qed.

Lemma str_app_assoc s t u : (s +:+ t) +:+ u = s +:+ (t +:+ u).
Proof.
  induction s as [|a s IH]; [done |]. by rewrite !str_app_cons, IH.
Qed.

Lemma str_app_length s t :
  String.length (s +:+ t) = (String.length s + String.length t)%nat.
Proof.
  induction s as [|a s IH]; [done |]. rewrite str_app_cons. simpl. by rewrite IH.
Qed.

Lemma startswith_spec s p : startswith s p = true ↔ ∃ t, s = p +:+ t.
Proof.
  revert s. induction p as [|b p IH]; intros s; simpl.
  - split; [intros _; by exists s | by intros _].
  - destruct s as [|a s]; simpl.
    + split; [done | intros [t Ht]; discriminate].
    + destruct (Ascii.eqb_spec a b) as [->|Hne].
      * rewrite IH. split; intros [t Ht]; exists t.
        -- by rewrite Ht.
        -- rewrite str_app_cons in Ht. by injection Ht.
      * split; [done | intros [t Ht]; rewrite str_app_cons in Ht; congruence].
Qed.

Lemma endswith_spec s p : endswith s p = true ↔ ∃ t, s = t +:+ p.
Proof.
  induction s as [|a s IH].
  - change (endswith "" p) with (String.eqb "" p || false).
    rewrite orb_false_r, String.eqb_eq. split.
    + intros <-. by exists "".
    + intros [t Ht]. destruct t as [|b t].
      * by rewrite str_app_nil_l in Ht.
      * rewrite str_app_cons in Ht. discriminate.
  - change (endswith (String a s) p) with (String.eqb (String a s) p || endswith s p).
    rewrite orb_true_iff, IH, String.eqb_eq. split.
    + intros [<- | [t ->]]; [by exists "" | by exists (String a t)].
    + intros [[|b t] Ht].
      * left. by rewrite str_app_nil_l in Ht.
      * right. exists t. rewrite str_app_cons in Ht. congruence.
Qed.

Lemma split_not_nil s sep : split s sep ≠ [].
Proof.
  destruct s as [|c s]; simpl; [done |].
  destruct (Ascii.eqb c sep); [done |]. by destruct (split s sep).
Qed.

Lemma contains_app s t c : contains (s +:+ t) c = contains s c || contains t c.
Proof.
  induction s as [|a s IH]; [done |]. rewrite str_app_cons. simpl.
  by rewrite IH, orb_assoc.
Qed.

(** The first piece of a split has no separator in it. *)
Lemma split_first_contains s sep : contains (split_first s sep) sep = false.
Proof.
  unfold split_first. induction s as [|c s IH]; simpl; [done |].
  destruct (Ascii.eqb c sep) eqn:Hc; [done |].
  destruct (split s sep) as [|h t] eqn:Hs; simpl in *.
  - by rewrite Hc.
  - by rewrite Hc, IH.
Qed.

(** A string without separator is its own first piece ... *)
Lemma split_first_plain s sep : contains s sep = false → split s sep = [s].
Proof.
  induction s as [|c s IH]; simpl; [done |].
  intros [Hc Hs]%orb_false_iff. rewrite Hc, (IH Hs). done.
Qed.

Lemma split_app_sep s t sep :
  contains s sep = false → split (s +:+ String sep t) sep = s :: split t sep.
Proof.
  induction s as [|c s IH]; simpl.
  - intros _. by rewrite Ascii.eqb_refl.
  - intros [Hc Hs]%orb_false_iff. by rewrite Hc, (IH Hs).
Qed.

Lemma split_first_app_sep s t sep :
  contains s sep = false → split_first (s +:+ String sep t) sep = s.
Proof. intros Hs. unfold split_first. by rewrite split_app_sep. Qed.

Lemma split_first_whole s sep : contains s sep = false → split_first s sep = s.
Proof. intros Hs. unfold split_first. by rewrite split_first_plain. Qed.

(** [join] over a list with at least two elements. *)
Lemma join_cons sep x y l : join sep (x :: y :: l) = x +:+ sep +:+ join sep (y :: l).
Proof. reflexivity. Qed.

(** Splitting a joined list of separator-free names gives the list back. *)
Lemma split_join l sep :
  l ≠ [] → Forall (λ x, contains x sep = false) l →
  split (join (String sep "") l) sep = l.
Proof.
  induction l as [|x l IH]; [done |]. intros _ Hall.
  apply Forall_cons in Hall as [Hx Hl].
  destruct l as [|y l].
  - simpl. by apply split_first_plain.
  - rewrite join_cons. rewrite str_app_cons, str_app_nil_l.
    rewrite split_app_sep by done. f_equal. by apply IH.
Qed.

Lemma rfind_app_dot_py s : rfind (s +:+ ".py") "." = Some (String.length s).
Proof.
  induction s as [|a s IH]; [done |].
  rewrite str_app_cons. simpl. by rewrite IH.
Qed.

Lemma slice_to_app s t : slice_to (s +:+ t) (String.length s) = s.
Proof.
  unfold slice_to. induction s as [|a s IH].
  - rewrite str_app_nil_l. by destruct t.
  - rewrite str_app_cons. simpl. by rewrite IH.
Qed.

(** Stripping [.py] from a dot-free stem followed by [.py]. *)
Lemma replace_from_plain s t :
  contains s "." = false →
  replace_from ".py" "" 0 (s +:+ t) = s +:+ replace_from ".py" "" 0 t.
Proof.
  induction s as [|a s IH]; [done |].
  intros [Ha Hs]%orb_false_iff. rewrite !str_app_cons.
  cbn [replace_from startswith]. rewrite Ha. by rewrite (IH Hs).
Qed.

Lemma replace_stem_py s : contains s "." = false → replace (s +:+ ".py") ".py" "" = s.
Proof.
  intros Hs. unfold replace. rewrite replace_from_plain by done.
  by rewrite <- (str_app_nil_r s) at 2.
Qed.

End string_facts.

(** ** Paths and the file system *)
Section path_facts.

Lemma relative_to_under a root rel :
  relative_to (mkPath a (root ++ rel)) (mkPath a root) = Some (mkPath false rel).
Proof.
  unfold relative_to; simpl.
  rewrite take_app_length, drop_app_length.
  by rewrite !bool_decide_eq_true_2.
Qed.

Lemma relative_to_Some p other rel :
  relative_to p other = Some rel →
  p = joinpath other rel ∧ anchored rel = false.
Proof.
  unfold relative_to.
  destruct (bool_decide (anchored p = anchored other)) eqn:Ha; [|done].
  destruct (bool_decide (take _ _ = _)) eqn:Hs; [|done].
  apply bool_decide_eq_true in Ha, Hs. intros [= <-]. split; [|done].
  unfold joinpath; simpl. destruct p as [a segs]; simpl in *.
  rewrite <- Ha. f_equal. rewrite <- Hs at 1. by rewrite take_drop.
Qed.

Lemma relative_to_None p other :
  relative_to p other = None ↔ ∀ rel, p ≠ joinpath other (of_segments rel).
Proof.
  split.
  - intros Hnone rel ->. unfold joinpath, of_segments in Hnone; simpl in Hnone.
    destruct other as [a root]. by rewrite relative_to_under in Hnone.
  - intros Hnot. destruct (relative_to p other) as [rel|] eqn:Hrel; [|done].
    apply relative_to_Some in Hrel as [-> Hrel]. destruct rel as [b rel]; simpl in *.
    subst b. by destruct (Hnot rel).
Qed.

Lemma relative_to_under_root self rel :
  relative_to (under_root self rel) (project_root self) = Some (of_segments rel).
Proof.
  unfold under_root, joinpath; simpl. destruct (project_root self) as [a root].
  apply relative_to_under.
Qed.

Lemma ancestors_prefix p l :
  mkPath (anchored p) l ∈ ancestors p ↔ l `prefix_of` segments p.
Proof.
  unfold ancestors. rewrite list_elem_of_fmap. split.
  - intros (k & [= ->] & _). apply prefix_take.
  - intros [rest Hrest]. exists (length l). rewrite Hrest. split.
    + by rewrite take_app_length.
    + apply elem_of_seq. rewrite length_app. lia.
Qed.

(** A file that is there makes every directory on the way to it exist. *)
Lemma path_exists_above fs a dir rest f :
  fs_files fs !! mkPath a (dir ++ rest) = Some f →
  path_exists fs (mkPath a dir) = true.
Proof.
  intros Hf. unfold path_exists, fs_entries. apply bool_decide_eq_true.
  rewrite elem_of_list_to_set, list_elem_of_bind.
  exists (mkPath a (dir ++ rest)). split.
  - apply (ancestors_prefix (mkPath a (dir ++ rest))). by exists rest.
  - apply elem_of_elements, elem_of_union_l, elem_of_dom. by exists f.
Qed.


End path_facts.

(** ** The test-file predicate *)

Lemma is_test_file_iff p :
  _is_test_file p = true ↔
  (∃ t, name p = "test_" +:+ t) ∨ (∃ t, name p = t +:+ "_test.py").
Proof.
  unfold _is_test_file.
  by rewrite orb_true_iff, startswith_spec, endswith_spec.
Qed.

(** C7 (as stated, refuted): the code does not accept [foo_test.txt],
    whose name ends with [_test] before its extension. *)
Lemma C7_counterexample :
  ¬ (∀ p, _is_test_file p = true ↔ name_convention_test_file p = true).
Proof.
  intros H. specialize (H (of_string "pkg/foo_test.txt")).
  vm_compute in H. destruct H as [_ H]. by specialize (H eq_refl).
Qed.

(** C7 (amended): the test-file predicate holds exactly when the file
    name starts with [test_] or ends with [_test.py]; the [_test] suffix
    counts only before the extension [.py]. *)
Theorem C7_is_test_file_py_only p :
  (_is_test_file p = true ↔
     (∃ t, name p = "test_" +:+ t) ∨ (∃ t, name p = t +:+ "_test.py"))
  ∧ _is_test_file (of_string "tests/test_foo.py") = true
  ∧ _is_test_file (of_string "tests/foo_test.py") = true
  ∧ _is_test_file (of_string "tests/foo_test.txt") = false
  ∧ _is_test_file (of_string "tests/testing.py") = false.
Proof. split; [apply is_test_file_iff | by vm_compute]. Qed.

(** ** Module identifiers *)

Lemma drop_src_cons_src rest : drop_src ("src" :: rest) = rest.
Proof. done. Qed.

Lemma drop_src_cons_other first rest :
  first ≠ "src" → drop_src (first :: rest) = first :: rest.
Proof. intros Hne. unfold drop_src. by rewrite bool_decide_eq_false_2. Qed.

(** [get_module_path] on a path below the root, by its relative segments. *)
Lemma get_module_path_under self rel :
  get_module_path self (under_root self rel) =
  match last (drop_src rel) with
  | Some final =>
      Some (PyStr.join "." (<[(length (drop_src rel) - 1)%nat :=
                               PyStr.replace final ".py" ""]> (drop_src rel)))
  | None => None
  end.
Proof. unfold get_module_path. by rewrite relative_to_under_root. Qed.

Lemma insert_last_snoc {A} (l : list A) x y :
  <[(length (l ++ [x]) - 1)%nat := y]> (l ++ [x]) = l ++ [y].
Proof.
  rewrite length_app; simpl.
  replace (length l + 1 - 1)%nat with (length l + 0)%nat by lia.
  by rewrite insert_app_r.
Qed.

(** The identifier of [dirs/file] once the leading [src] is dealt with. *)
Lemma get_module_path_kept self dirs file :
  drop_src (dirs ++ [file]) = dirs ++ [file] →
  get_module_path self (under_root self (dirs ++ [file])) =
  Some (PyStr.join "." (dirs ++ [PyStr.replace file ".py" ""])).
Proof.
  intros Hkeep. rewrite get_module_path_under, Hkeep, last_snoc.
  by rewrite insert_last_snoc.
Qed.

Lemma get_module_path_src self dirs file :
  get_module_path self (under_root self ("src" :: dirs ++ [file])) =
  Some (PyStr.join "." (dirs ++ [PyStr.replace file ".py" ""])).
Proof.
  rewrite get_module_path_under, drop_src_cons_src, last_snoc.
  by rewrite insert_last_snoc.
Qed.

Lemma get_module_path_no_src self first dirs file :
  first ≠ "src" →
  get_module_path self (under_root self (first :: dirs ++ [file])) =
  Some (PyStr.join "." (first :: dirs ++ [PyStr.replace file ".py" ""])).
Proof.
  intros Hne. apply (get_module_path_kept self (first :: dirs) file).
  by apply drop_src_cons_other.
Qed.

Lemma get_module_path_outside self p :
  (∀ rel, p ≠ under_root self rel) → get_module_path self p = None.
Proof.
  intros Hout. unfold get_module_path.
  by rewrite (proj2 (relative_to_None p (project_root self)) Hout).
Qed.

(** C4: under project root [.], [src/mypackage/module.py] and
    [mypackage/module.py] both resolve to [mypackage.module]; a path that
    is not below the project root is unresolvable; and only a [src]
    segment in first position is dropped: after a leading [src] every
    further segment is kept, and a path starting with another segment
    keeps all its segments, a deeper [src] included. *)
Theorem C4_get_module_path_resolution :
  get_module_path (new_TestMapper ".") (of_string "src/mypackage/module.py")
    = Some "mypackage.module"
  ∧ get_module_path (new_TestMapper ".") (of_string "mypackage/module.py")
    = Some "mypackage.module"
  ∧ (∀ self p, (∀ rel, p ≠ under_root self rel) → get_module_path self p = None)
  ∧ (∀ self dirs file,
       get_module_path self (under_root self ("src" :: dirs ++ [file]))
       = Some (PyStr.join "." (dirs ++ [PyStr.replace file ".py" ""])))
  ∧ (∀ self first dirs file, first ≠ "src" →
       get_module_path self (under_root self (first :: dirs ++ [file]))
       = Some (PyStr.join "." (first :: dirs ++ [PyStr.replace file ".py" ""])))
  ∧ get_module_path (new_TestMapper ".") (of_string "pkg/src/module.py")
    = Some "pkg.src.module"
  ∧ get_module_path (new_TestMapper ".") (of_string "src/src/module.py")
    = Some "src.module".
Proof.
  split; [by vm_compute |]. split; [by vm_compute |].
  split; [apply get_module_path_outside |].
  split; [apply get_module_path_src |].
  split; [apply get_module_path_no_src |].
  split; by vm_compute.
Qed.

(** C4 at concrete inputs: an anchored path is not below the relative
    root [.], and [pkg/src/module.py] keeps its inner [src]. *)
Lemma C4_witness :
  get_module_path (new_TestMapper ".") (of_string "/elsewhere/module.py") = None
  ∧ get_module_path (new_TestMapper ".")
      (under_root (new_TestMapper ".") ("pkg" :: ["src"] ++ ["module.py"]))
    = Some (PyStr.join "." ("pkg" :: ["src"] ++ [PyStr.replace "module.py" ".py" ""])).
Proof.
  split.
  - apply (proj1 (proj2 (proj2 C4_get_module_path_resolution))).
    intros rel. vm_compute. discriminate.
  - apply (proj1 (proj2 (proj2 (proj2 (proj2 C4_get_module_path_resolution))))).
    discriminate.
Defined.

Lemma drop_src_dot_py dirs stem :
  drop_src (dirs ++ [stem +:+ ".py"]) = drop_src dirs ++ [stem +:+ ".py"].
Proof.
  destruct dirs as [|d dirs]; simpl.
  - rewrite bool_decide_eq_false_2; [done |].
    intros Heq. apply (f_equal (λ s, PyStr.contains s ".")) in Heq.
    rewrite contains_app in Heq. by rewrite orb_true_r in Heq.
  - by case_bool_decide.
Qed.

Lemma drop_src_dot_free dirs :
  Forall (λ d, PyStr.contains d "." = false) dirs →
  Forall (λ d, PyStr.contains d "." = false) (drop_src dirs).
Proof.
  intros Hdirs. destruct dirs as [|d dirs]; simpl; [done |].
  case_bool_decide; [by apply Forall_cons in Hdirs as [_ ?] | done].
Qed.

(** The identifier of a dot-free location is its names, after a leading
    [src], joined by dots. *)
Lemma get_module_path_dot_free self dirs stem :
  dot_free_location dirs stem →
  get_module_path self (under_root self (dirs ++ [stem +:+ ".py"]))
  = Some (PyStr.join "." (drop_src dirs ++ [stem])).
Proof.
  intros [_ Hstem].
  rewrite get_module_path_under, drop_src_dot_py, last_snoc, insert_last_snoc.
  by rewrite replace_stem_py.
Qed.

(** C5 (as stated, refuted): [src/pkg/mod.py] and [pkg/mod.py] are two
    paths under the root with the same module identifier. *)
Lemma C5_counterexample :
  ¬ (∀ self p q m,
       get_module_path self p = Some m → get_module_path self q = Some m → p = q).
Proof.
  intros H.
  specialize (H (new_TestMapper ".") (of_string "src/pkg/mod.py")
                (of_string "pkg/mod.py") "pkg.mod" eq_refl eq_refl).
  discriminate H.
Qed.

(** C5 (amended): the derivation is injective up to a leading [src].
    For paths below the project root whose directory names have no dot
    and whose file name is a dot-free stem followed by [.py], two paths
    have the same module identifier exactly when they coincide once a
    leading [src] is dropped; hence two distinct such paths that both
    start with [src], or both do not, have distinct identifiers, and
    the only collision is between a path and its twin under [src/]. *)
Theorem C5_get_module_path_injective_up_to_src self dirs1 stem1 dirs2 stem2 :
  dot_free_location dirs1 stem1 → dot_free_location dirs2 stem2 →
  (get_module_path self (under_root self (dirs1 ++ [stem1 +:+ ".py"]))
   = get_module_path self (under_root self (dirs2 ++ [stem2 +:+ ".py"]))
   ↔ drop_src (dirs1 ++ [stem1 +:+ ".py"]) = drop_src (dirs2 ++ [stem2 +:+ ".py"]))
  ∧ ((head dirs1 = Some "src" ↔ head dirs2 = Some "src") →
     under_root self (dirs1 ++ [stem1 +:+ ".py"])
     ≠ under_root self (dirs2 ++ [stem2 +:+ ".py"]) →
     get_module_path self (under_root self (dirs1 ++ [stem1 +:+ ".py"]))
     ≠ get_module_path self (under_root self (dirs2 ++ [stem2 +:+ ".py"]))).
Proof.
  intros H1 H2.
  assert (Hnames : ∀ dirs stem, dot_free_location dirs stem →
            Forall (λ x, PyStr.contains x "." = false) (drop_src dirs ++ [stem])).
  { intros dirs stem [Hdirs Hstem]. apply Forall_app. split.
    - by apply drop_src_dot_free.
    - by apply Forall_singleton. }
  assert (Hsame : get_module_path self (under_root self (dirs1 ++ [stem1 +:+ ".py"]))
                  = get_module_path self (under_root self (dirs2 ++ [stem2 +:+ ".py"]))
                  → drop_src dirs1 = drop_src dirs2 ∧ stem1 = stem2).
  { rewrite !get_module_path_dot_free by done. intros [= Hjoin].
    assert (Hs1 : PyStr.split (PyStr.join "." (drop_src dirs1 ++ [stem1])) "."
                  = drop_src dirs1 ++ [stem1]).
    { apply split_join; [by destruct (drop_src dirs1) | by apply Hnames]. }
    assert (Hs2 : PyStr.split (PyStr.join "." (drop_src dirs2 ++ [stem2])) "."
                  = drop_src dirs2 ++ [stem2]).
    { apply split_join; [by destruct (drop_src dirs2) | by apply Hnames]. }
    rewrite Hjoin, Hs2 in Hs1. by apply app_inj_tail in Hs1 as [-> ->]. }
  split.
  - split.
    + intros [Hdirs ->]%Hsame. by rewrite !drop_src_dot_py, Hdirs.
    + intros Hdrop. by rewrite !get_module_path_under, Hdrop.
  - intros Hhead Hne [Hdirs ->]%Hsame. apply Hne. f_equal. f_equal.
    destruct dirs1 as [|d1 t1], dirs2 as [|d2 t2]; simpl in *.
    + done.
    + case_bool_decide as Hd; [subst d2; discriminate (proj2 Hhead eq_refl) |].
      discriminate Hdirs.
    + case_bool_decide as Hd; [subst d1; discriminate (proj1 Hhead eq_refl) |].
      discriminate Hdirs.
    + case_bool_decide as Hd1; case_bool_decide as Hd2; subst.
      * done.
      * destruct Hd2. by injection (proj1 Hhead eq_refl).
      * destruct Hd1. by injection (proj2 Hhead eq_refl).
      * done.
Qed.

Lemma C5_witness :
  get_module_path (new_TestMapper ".")
    (under_root (new_TestMapper ".") (["src"; "pkg"] ++ ["mod" +:+ ".py"]))
  ≠ get_module_path (new_TestMapper ".")
      (under_root (new_TestMapper ".") (["src"; "pkg"; "sub"] ++ ["mod" +:+ ".py"])).
Proof.
  refine (proj2 (C5_get_module_path_injective_up_to_src (new_TestMapper ".")
                   ["src"; "pkg"] "mod" ["src"; "pkg"; "sub"] "mod" _ _) _ _).
  - split; [by repeat constructor | reflexivity].
  - split; [by repeat constructor | reflexivity].
  - done.
  - vm_compute. discriminate.
Defined.

(** ** Syntax trees and import extraction *)

(** Induction over a tree together with the children of each node. *)
Lemma node_ind (P : node → Prop) :
  (∀ names, P (Import names)) →
  (∀ module names level, P (ImportFrom module names level)) →
  (∀ kind children, Forall P children → P (Node kind children)) →
  ∀ n, P n.
Proof.
  intros Himport Hfrom Hnode.
  fix IH 1. intros [names | module names level | kind children].
  - apply Himport.
  - apply Hfrom.
  - apply Hnode. induction children as [|c children IHc]; constructor; [apply IH | apply IHc].
Qed.

Lemma walk_within t n : n ∈ walk t ↔ within n t.
Proof.
  induction t as [names | module names level | kind children IH] using node_ind; simpl.
  - rewrite elem_of_cons. split.
    + intros [-> | Hin]; [constructor | by apply elem_of_nil in Hin].
    + inversion 1; by left.
  - rewrite elem_of_cons. split.
    + intros [-> | Hin]; [constructor | by apply elem_of_nil in Hin].
    + inversion 1; by left.
  - rewrite elem_of_cons, list_elem_of_In, in_flat_map. split.
    + intros [-> | (c & Hc & Hn)]; [constructor |].
      apply list_elem_of_In in Hc, Hn.
      apply (within_child n kind children c Hc).
      rewrite Forall_forall in IH. by apply IH.
    + inversion 1 as [| ? ? c Hc Hn]; subst; [by left | right].
      exists c. rewrite <- !list_elem_of_In. split; [done |].
      rewrite Forall_forall in IH. by apply IH.
Qed.

Lemma truthy_iff s : PyStr.truthy s = true ↔ s ≠ "".
Proof. by destruct s. Qed.

Lemma collect_import_iff imports n x :
  x ∈ collect_import imports n ↔ x ∈ imports ∨ imported_root n x.
Proof.
  destruct n as [names | [module|] names level | kind children]; simpl.
  - revert imports. induction names as [|a names IH]; intros imports; simpl.
    + split; [by left | intros [H | (a & Ha & _)]; [done | by apply elem_of_nil in Ha]].
    + rewrite IH, elem_of_union, elem_of_singleton. split.
      * intros [[H | ->] | (b & Hb & ->)]; [by left | right; exists a | right; exists b];
          (split; [| done]); [by left | by right].
      * intros [H | (b & [-> | Hb]%elem_of_cons & ->)];
          [by left; left | by left; right | right; by exists b].
  - destruct (PyStr.truthy module) eqn:Ht.
    + rewrite elem_of_union, elem_of_singleton.
      apply truthy_iff in Ht. naive_solver.
    + assert (module = "") as -> by by destruct module. naive_solver.
  - naive_solver.
  - naive_solver.
Qed.

Lemma foldl_collect_import_iff nodes imports x :
  x ∈ foldl collect_import imports nodes ↔
  x ∈ imports ∨ ∃ n, n ∈ nodes ∧ imported_root n x.
Proof.
  revert imports. induction nodes as [|n nodes IH]; intros imports; simpl.
  - split; [by left | intros [H | (n & Hn & _)]; [done | by apply elem_of_nil in Hn]].
  - rewrite IH, collect_import_iff. setoid_rewrite elem_of_cons. naive_solver.
Qed.

(** What [extract_imports] returns on a file that parses. *)
Lemma extract_imports_parsed fs p tree :
  fs_files fs !! p = Some (Source tree) →
  extract_imports fs p = Ok (foldl collect_import ∅ (walk tree)).
Proof. intros Hp. unfold extract_imports, open_and_parse. by rewrite Hp. Qed.

Lemma extract_imports_iff fs p tree imports :
  fs_files fs !! p = Some (Source tree) →
  extract_imports fs p = Ok imports →
  ∀ x, x ∈ imports ↔ ∃ n, within n tree ∧ imported_root n x.
Proof.
  intros Hp. rewrite (extract_imports_parsed fs p tree Hp). intros [= <-] x.
  rewrite foldl_collect_import_iff. setoid_rewrite walk_within.
  split; [intros [H | H]; [by apply not_elem_of_empty in H | done] | by right].
Qed.

(** C6 (as stated, refuted): a file whose only import is inside a
    function body has no top-level import, yet its import set is not
    empty. *)
Lemma C6_counterexample :
  ¬ (∀ fs p tree,
       fs_files fs !! p = Some (Source tree) →
       top_level_imports tree = [] →
       extract_imports fs p = Ok ∅).
Proof.
  intros H.
  specialize (H (one_file "tests/test_x.py" (Source nested_import_module))
                (of_string "tests/test_x.py") nested_import_module eq_refl eq_refl).
  vm_compute in H. discriminate H.
Qed.

(** C6 (amended): [extract_imports] captures the static import
    statements at every depth of the tree, not only at the top level: on
    a file that parses, a name is in the result exactly when some import
    statement anywhere in the tree refers to it by its first dotted
    segment; relative imports with no module name contribute nothing,
    so a file whose import statements are all of that kind yields the
    empty set. *)
Theorem C6_extract_imports_any_depth fs p tree :
  fs_files fs !! p = Some (Source tree) →
  ∃ imports,
    extract_imports fs p = Ok imports
    ∧ (∀ x, x ∈ imports ↔ ∃ n, within n tree ∧ imported_root n x)
    ∧ ((∀ n, within n tree → is_import n = true →
             ∃ names level, n = ImportFrom None names level) →
       imports = ∅).
Proof.
  intros Hp. exists (foldl collect_import ∅ (walk tree)).
  pose proof (extract_imports_parsed fs p tree Hp) as Hex.
  split; [done |]. split; [by apply (extract_imports_iff fs p tree) |].
  intros Hrel. apply set_eq. intros x.
  rewrite (extract_imports_iff fs p tree _ Hp Hex x). split.
  - intros (n & Hn & Hx). destruct n as [names | module names level | kind children].
    + destruct (Hrel _ Hn eq_refl) as (? & ? & [=]).
    + destruct (Hrel _ Hn eq_refl) as (? & ? & [= -> _ _]). done.
    + done.
  - intros Hx. by apply not_elem_of_empty in Hx.
Qed.

Lemma C6_witness :
  ∃ imports,
    extract_imports (one_file "tests/test_x.py" (Source nested_import_module))
                    (of_string "tests/test_x.py") = Ok imports
    ∧ (∀ x, x ∈ imports ↔ ∃ n, within n nested_import_module ∧ imported_root n x)
    ∧ ((∀ n, within n nested_import_module → is_import n = true →
             ∃ names level, n = ImportFrom None names level) →
       imports = ∅).
Proof.
  apply (C6_extract_imports_any_depth
           (one_file "tests/test_x.py" (Source nested_import_module))
           (of_string "tests/test_x.py") nested_import_module).
  reflexivity.
Defined.

Example extract_imports_nested :
  extract_imports (one_file "tests/test_x.py" (Source nested_import_module))
                  (of_string "tests/test_x.py") = Ok {[ "os" ]}.
Proof. vm_refl. Qed.

Example extract_imports_relative :
  extract_imports (one_file "tests/test_x.py" (Source relative_import_module))
                  (of_string "tests/test_x.py") = Ok ∅.
Proof. vm_refl. Qed.

(** ** The three loops of [find_affected_tests] *)

(** Case analysis over the disjunctions and witnesses of a membership
    characterisation. *)
Ltac cases_solver :=
  split; intros;
  repeat match goal with
         | H : _ ∨ _ |- _ => destruct H
         | H : _ ∧ _ |- _ => destruct H
         | H : ∃ _, _ |- _ => destruct H
         end;
  subst;
  repeat match goal with
         | H1 : ?a = Some _, H2 : ?a = Some _ |- _ =>
             rewrite H1 in H2; injection H2 as ?; subst
         end;
  try congruence; eauto 10.

Lemma result_bind_Ok {A B} (r : result A) (k : A → result B) b :
  result_bind r k = Ok b ↔ ∃ a, r = Ok a ∧ k a = Ok b.
Proof.
  destruct r as [a | e]; simpl.
  - split; [intros H; by exists a | by intros (? & [= <-] & H)].
  - split; [done | by intros (? & [=] & _)].
Qed.

Section loops.
Variable self : TestMapper.
Variable fs : FileSystem.

(** Strategy 1 *)
Lemma direct_loop_iff (changed : list Path) (acc : gset Path) x :
  x ∈ foldl (λ affected_tests changed_file,
               if _is_test_file changed_file
               then affected_tests ∪ {[changed_file]}
               else affected_tests) acc changed
  ↔ x ∈ acc ∨ (x ∈ changed ∧ _is_test_file x = true).
Proof.
  revert acc. induction changed as [|f changed IH]; intros acc; simpl.
  - split; [by left | intros [H | [H _]]; [done | by apply elem_of_nil in H]].
  - rewrite IH, elem_of_cons. destruct (_is_test_file f) eqn:Hf.
    + rewrite elem_of_union, elem_of_singleton. cases_solver.
    + cases_solver.
Qed.

(** Strategy 2, inner loop over the candidates of one changed file *)
Lemma candidate_loop_iff (test_files : gset Path) (candidates : list Path)
    (acc : gset Path) x :
  x ∈ foldl (λ affected_tests candidate,
               if bool_decide (candidate ∈ test_files)
               then affected_tests ∪ {[candidate]}
               else affected_tests) acc candidates
  ↔ x ∈ acc ∨ (x ∈ candidates ∧ x ∈ test_files).
Proof.
  revert acc. induction candidates as [|c candidates IH]; intros acc; simpl.
  - split; [by left | intros [H | [H _]]; [done | by apply elem_of_nil in H]].
  - rewrite IH, elem_of_cons. case_bool_decide as Hc.
    + rewrite elem_of_union, elem_of_singleton. cases_solver.
    + cases_solver.
Qed.

(** Strategy 2, outer loop *)
Lemma naming_loop_iff (test_files : gset Path) (changed : list Path)
    (acc : gset Path) x :
  x ∈ foldl (λ affected_tests changed_file,
               if negb (_is_test_file changed_file)
               then foldl (λ affected_tests candidate,
                             if bool_decide (candidate ∈ test_files)
                             then affected_tests ∪ {[candidate]}
                             else affected_tests)
                          affected_tests (_get_test_candidates self fs changed_file)
               else affected_tests) acc changed
  ↔ x ∈ acc ∨ ∃ f, f ∈ changed ∧ _is_test_file f = false
                   ∧ x ∈ _get_test_candidates self fs f ∧ x ∈ test_files.
Proof.
  revert acc. induction changed as [|f changed IH]; intros acc; simpl.
  - split; [by left | intros [H | (f & H & _)]; [done | by apply elem_of_nil in H]].
  - rewrite IH. setoid_rewrite elem_of_cons. destruct (_is_test_file f) eqn:Hf; simpl.
    + cases_solver.
    + rewrite candidate_loop_iff. cases_solver.
Qed.

(** Strategy 3, the changed modules *)
Lemma changed_modules_loop_iff (changed : list Path) (acc : gset string) m :
  m ∈ foldl (λ changed_modules changed_file,
               match get_module_path self changed_file with
               | Some module_path =>
                   if PyStr.truthy module_path
                   then changed_modules ∪ {[module_path]}
                   else changed_modules
               | None => changed_modules
               end) acc changed
  ↔ m ∈ acc ∨ ∃ f, f ∈ changed ∧ get_module_path self f = Some m ∧ m ≠ "".
Proof.
  revert acc. induction changed as [|f changed IH]; intros acc; simpl.
  - split; [by left | intros [H | (f & H & _)]; [done | by apply elem_of_nil in H]].
  - rewrite IH. setoid_rewrite elem_of_cons.
    destruct (get_module_path self f) as [mp|] eqn:Hmp.
    + destruct (PyStr.truthy mp) eqn:Ht.
      * apply truthy_iff in Ht. rewrite elem_of_union, elem_of_singleton. cases_solver.
      * assert (mp = "") as -> by by destruct mp. cases_solver.
    + cases_solver.
Qed.

(** Strategy 3, inner loop with its [break] *)
Lemma match_changed_modules_iff imports test_file mods (acc : gset Path) x :
  x ∈ match_changed_modules imports test_file mods acc
  ↔ x ∈ acc ∨ (x = test_file ∧ ∃ m, m ∈ mods ∧ PyStr.split_first m "." ∈ imports).
Proof.
  induction mods as [|m mods IH]; simpl.
  - split; [by left | intros [H | (_ & m & H & _)]; [done | by apply elem_of_nil in H]].
  - setoid_rewrite elem_of_cons. case_bool_decide as Hm.
    + rewrite elem_of_union, elem_of_singleton. cases_solver.
    + rewrite IH. cases_solver.
Qed.

Lemma changed_module_roots_iff (changed_files : gset Path) r :
  r ∈ changed_module_roots self changed_files
  ↔ ∃ f m, f ∈ changed_files ∧ get_module_path self f = Some m ∧ m ≠ ""
           ∧ r = PyStr.split_first m ".".
Proof.
  unfold changed_module_roots. rewrite elem_of_list_to_set, list_elem_of_omap. split.
  - intros (f & Hf & Hr). apply elem_of_elements in Hf.
    destruct (get_module_path self f) as [m|] eqn:Hm; [|done].
    destruct (PyStr.truthy m) eqn:Ht; [|done]. apply truthy_iff in Ht.
    injection Hr as <-. by exists f, m.
  - intros (f & m & Hf & Hm & Hne & ->). exists f. split; [by apply elem_of_elements |].
    rewrite Hm. apply truthy_iff in Hne. by rewrite Hne.
Qed.

End loops.

(** ** The selector as a union *)
Section selector.
Variable self : TestMapper.
Variable fs : FileSystem.

Lemma elem_of_strategy_direct changed x :
  x ∈ strategy_direct changed ↔ x ∈ changed ∧ _is_test_file x = true.
Proof. unfold strategy_direct. rewrite elem_of_filter. tauto. Qed.

Lemma elem_of_strategy_naming changed tests x :
  x ∈ strategy_naming self fs changed tests ↔
  ∃ f, f ∈ changed ∧ _is_test_file f = false
       ∧ x ∈ _get_test_candidates self fs f ∧ x ∈ tests.
Proof.
  unfold strategy_naming. rewrite elem_of_set_bind.
  setoid_rewrite elem_of_filter. setoid_rewrite elem_of_intersection.
  setoid_rewrite elem_of_list_to_set. split.
  - intros (f & [Hf Hc] & Hx & Ht). by exists f.
  - intros (f & Hc & Hf & Hx & Ht). by exists f.
Qed.

Lemma import_sets_iff files table :
  import_sets fs files = Ok table →
  ∀ t imports, (t, imports) ∈ table ↔ t ∈ files ∧ extract_imports fs t = Ok imports.
Proof.
  revert table. induction files as [|f files IH]; intros table; simpl.
  - intros [= <-] t imports. split; [intros H | intros [H _]]; by apply elem_of_nil in H.
  - destruct (extract_imports fs f) as [i|e] eqn:Hf; simpl; [|done].
    destruct (import_sets fs files) as [others|e] eqn:Hrest; simpl; [|done].
    intros [= <-] t imports. rewrite !elem_of_cons, (IH others eq_refl). split.
    + intros [[= -> ->] | [Ht Hi]]; [by split; [left|] | by split; [right|]].
    + intros [[-> | Ht] Hi]; [left; congruence | by right].
Qed.

Lemma import_sets_returns files :
  (∀ t, t ∈ files → ∃ imports, extract_imports fs t = Ok imports) →
  ∃ table, import_sets fs files = Ok table.
Proof.
  induction files as [|f files IH]; intros Hall; simpl; [by eexists |].
  destruct (Hall f) as [i ->]; [by left |]. simpl.
  destruct IH as [table ->]; [intros t Ht; apply Hall; by right |].
  by eexists.
Qed.

(** The third loop adds to what the first two have found exactly the
    test files whose imports meet the roots. *)
Lemma scan_test_files_spec (mods roots : gset string) files (acc : gset Path) :
  (∀ imports : gset string,
     (∃ m, m ∈ elements mods ∧ PyStr.split_first m "." ∈ imports)
     ↔ imports ∩ roots ≠ ∅) →
  scan_test_files fs mods files acc =
  let* table := import_sets fs files in
  Ok (acc ∪ list_to_set (fst <$> filter (λ entry, snd entry ∩ roots ≠ ∅) table)).
Proof.
  intros Hroots. revert acc. induction files as [|f files IH]; intros acc; simpl.
  - f_equal. set_solver.
  - destruct (extract_imports fs f) as [i|e] eqn:Hf; simpl; [|done].
    rewrite IH. destruct (import_sets fs files) as [table|e]; simpl; [|done].
    f_equal. apply set_eq. intros x.
    rewrite !elem_of_union, match_changed_modules_iff, Hroots.
    rewrite filter_cons. simpl. case_decide as Hi.
    + rewrite fmap_cons, list_to_set_cons. simpl. set_solver.
    + set_solver.
Qed.

Lemma changed_modules_roots changed (imports : gset string) :
  (∃ m, m ∈ elements
            (foldl (λ (changed_modules : gset string) changed_file,
                      match get_module_path self changed_file with
                      | Some module_path =>
                          if PyStr.truthy module_path
                          then changed_modules ∪ {[module_path]}
                          else changed_modules
                      | None => changed_modules
                      end) ∅ (elements changed))
        ∧ PyStr.split_first m "." ∈ imports)
  ↔ imports ∩ changed_module_roots self changed ≠ ∅.
Proof.
  split.
  - intros (m & Hm & Hin). apply elem_of_elements, changed_modules_loop_iff in Hm.
    destruct Hm as [Hm | (f & Hf & Hmp & Hne)]; [by apply not_elem_of_empty in Hm |].
    apply elem_of_elements in Hf.
    intros Hempty. apply (not_elem_of_empty (C:=gset string) (PyStr.split_first m ".")).
    rewrite <- Hempty. apply elem_of_intersection. split; [done |].
    apply changed_module_roots_iff. by exists f, m.
  - intros Hne. apply set_choose_L in Hne as [r [Hr Hroot]%elem_of_intersection].
    apply changed_module_roots_iff in Hroot as (f & m & Hf & Hmp & Hne & ->).
    exists m. split; [|done]. apply elem_of_elements, changed_modules_loop_iff.
    right. exists f. by rewrite elem_of_elements.
Qed.

(** [find_affected_tests] is the union of the three strategies. *)
Lemma find_affected_tests_union changed tests :
  find_affected_tests self fs changed (Some tests)
  = union_of_strategies self fs changed tests.
Proof.
  unfold find_affected_tests, union_of_strategies, strategy_imports.
  rewrite (scan_test_files_spec _ (changed_module_roots self changed))
    by apply changed_modules_roots.
  destruct (import_sets fs (elements tests)) as [table|e]; simpl; [|done].
  f_equal. apply set_eq. intros x.
  rewrite !elem_of_union, naming_loop_iff, direct_loop_iff.
  rewrite elem_of_strategy_direct, elem_of_strategy_naming.
  setoid_rewrite elem_of_elements. set_solver.
Qed.

End selector.

Section selector_facts.
Variable self : TestMapper.
Variable fs : FileSystem.

(** A file on which [extract_imports] returns is a regular file. *)
Lemma extract_imports_Ok_present p imports :
  extract_imports fs p = Ok imports → is_Some (fs_files fs !! p).
Proof.
  unfold extract_imports, open_and_parse.
  destruct (fs_files fs !! p) as [f|] eqn:Hp; [by eexists |].
  by destruct (path_exists fs p), (blocked fs p).
Qed.

Lemma import_sets_returns_iff files :
  (∃ table, import_sets fs files = Ok table) ↔
  ∀ t, t ∈ files → ∃ imports, extract_imports fs t = Ok imports.
Proof.
  split.
  - intros [table Htable] t Ht.
    revert table Htable. induction files as [|f files IH]; intros table; simpl.
    + by apply elem_of_nil in Ht.
    + destruct (extract_imports fs f) as [i|e] eqn:Hf; simpl; [|done].
      destruct (import_sets fs files) as [others|e] eqn:Hrest; simpl; [|done].
      intros _. apply elem_of_cons in Ht as [-> | Ht]; [by exists i | by apply (IH Ht others)].
  - apply import_sets_returns.
Qed.

(** The selector returns exactly when [extract_imports] returns on
    every file of the test-file set (the existence tests of
    [_get_test_candidates] are taken not to raise). *)
Lemma find_affected_tests_returns_iff changed tests :
  (∃ r, find_affected_tests self fs changed (Some tests) = Ok r)
  ↔ imports_extracted fs tests.
Proof.
  rewrite find_affected_tests_union.
  unfold union_of_strategies, strategy_imports, imports_extracted.
  setoid_rewrite <- elem_of_elements. rewrite <- import_sets_returns_iff. split.
  - intros [r Hr]. destruct (import_sets fs (elements tests)) as [table|e]; [by eexists | done].
  - intros [table ->]. simpl. by eexists.
Qed.

(** Membership in the result, strategy by strategy. *)
Lemma find_affected_tests_iff changed tests r :
  find_affected_tests self fs changed (Some tests) = Ok r →
  ∀ x, x ∈ r ↔
    (x ∈ changed ∧ _is_test_file x = true)
    ∨ (∃ f, f ∈ changed ∧ _is_test_file f = false
            ∧ x ∈ _get_test_candidates self fs f ∧ x ∈ tests)
    ∨ (x ∈ tests ∧ ∃ imports, extract_imports fs x = Ok imports
                              ∧ imports ∩ changed_module_roots self changed ≠ ∅).
Proof.
  rewrite find_affected_tests_union. unfold union_of_strategies, strategy_imports.
  destruct (import_sets fs (elements tests)) as [table|e] eqn:Htable; simpl; [|done].
  intros [= <-] x. pose proof (import_sets_iff fs _ _ Htable) as Hin.
  rewrite !elem_of_union, elem_of_strategy_direct, elem_of_strategy_naming.
  rewrite elem_of_list_to_set, list_elem_of_fmap.
  assert ((∃ entry : Path * gset string, x = entry.1 ∧
             entry ∈ filter (λ entry, entry.2 ∩ changed_module_roots self changed ≠ ∅) table)
          ↔ x ∈ tests ∧ ∃ imports, extract_imports fs x = Ok imports
                              ∧ imports ∩ changed_module_roots self changed ≠ ∅) as ->.
  { split.
    - intros ([t i] & -> & [Hne Ht]%list_elem_of_filter). simpl in *.
      apply Hin in Ht as [Ht Hi]. apply elem_of_elements in Ht. split; [done | by exists i].
    - intros (Ht & i & Hi & Hne). exists (x, i). split; [done |].
      apply list_elem_of_filter. split; [done |]. apply Hin. by rewrite elem_of_elements. }
  tauto.
Qed.

End selector_facts.

(** ** Failure semantics *)

Lemma extract_imports_unreadable fs p :
  fs_files fs !! p = Some Malformed ∨ fs_files fs !! p = Some Undecodable →
  extract_imports fs p = Ok ∅.
Proof. unfold extract_imports, open_and_parse. by intros [-> | ->]. Qed.






(** With a broken and an undecodable file in the test-file set, the
    other test files are still matched. *)
Example find_affected_tests_sample :
  find_affected_tests sample_mapper sample_fs {[ of_string "src/pkg/foo.py" ]}
    (Some sample_tests)
  = Ok {[ of_string "tests/pkg/test_foo.py"; of_string "tests/test_api.py" ]}.
Proof. vm_refl. Qed.

(** ** The union and its bounds *)

(** C2: the result of [find_affected_tests] is the union of the three
    strategies computed independently of each other (the two sides
    raise together, on the same exception, when [extract_imports]
    raises on a test file); every changed file that is a test file is
    in the result, whether or not it is in the test-file set. *)
Theorem C2_union_of_three_strategies self fs changed tests :
  find_affected_tests self fs changed (Some tests)
  = union_of_strategies self fs changed tests
  ∧ (∀ r, find_affected_tests self fs changed (Some tests) = Ok r →
       (∃ by_imports,
          strategy_imports self fs changed tests = Ok by_imports
          ∧ r = strategy_direct changed ∪ strategy_naming self fs changed tests
                ∪ by_imports)
       ∧ ∀ f, f ∈ changed → _is_test_file f = true → f ∈ r).
Proof.
  split; [apply find_affected_tests_union |].
  intros r Hr. split.
  - rewrite find_affected_tests_union in Hr. unfold union_of_strategies in Hr.
    destruct (strategy_imports self fs changed tests) as [c|e]; [|done].
    injection Hr as <-. by exists c.
  - intros f Hf Htest. apply (find_affected_tests_iff self fs changed tests r Hr).
    by left.
Qed.

Lemma C2_witness :
  (∃ by_imports,
     strategy_imports sample_mapper sample_fs {[ of_string "tests/test_new.py" ]} sample_tests
     = Ok by_imports
     ∧ ({[ of_string "tests/test_new.py"; of_string "tests/test_shared.py" ]} : gset Path)
       = strategy_direct {[ of_string "tests/test_new.py" ]}
         ∪ strategy_naming sample_mapper sample_fs {[ of_string "tests/test_new.py" ]}
             sample_tests
         ∪ by_imports)
  ∧ of_string "tests/test_new.py"
    ∈ ({[ of_string "tests/test_new.py"; of_string "tests/test_shared.py" ]} : gset Path).
Proof.
  pose proof (C2_union_of_three_strategies sample_mapper sample_fs
                {[ of_string "tests/test_new.py" ]} sample_tests) as (_ & Hmem).
  destruct (Hmem {[ of_string "tests/test_new.py"; of_string "tests/test_shared.py" ]})
    as [Hunion Hdirect]; [vm_refl |].
  split; [exact Hunion |].
  apply Hdirect; [by apply elem_of_singleton | vm_refl].
Defined.

(** C3: the result is a subset of the test-file set together with the
    changed files that are test files. *)
Theorem C3_result_within_tests_and_changed_tests self fs changed tests r :
  find_affected_tests self fs changed (Some tests) = Ok r →
  r ⊆ tests ∪ filter (λ f, _is_test_file f = true) changed.
Proof.
  intros Hr x Hx. apply (find_affected_tests_iff self fs changed tests r Hr) in Hx.
  rewrite elem_of_union, elem_of_filter.
  destruct Hx as [[Hc Ht] | [(f & _ & _ & _ & Ht) | [Ht _]]]; [by right | by left | by left].
Qed.

Lemma C3_witness :
  ({[ of_string "tests/pkg/test_foo.py"; of_string "tests/test_api.py" ]} : gset Path)
  ⊆ sample_tests
    ∪ filter (λ f, _is_test_file f = true) ({[ of_string "src/pkg/foo.py" ]} : gset Path).
Proof.
  apply (C3_result_within_tests_and_changed_tests sample_mapper sample_fs
           {[ of_string "src/pkg/foo.py" ]} sample_tests).
  vm_refl.
Defined.

(** ** Strategy B: candidates by naming convention *)
Section candidates.
Variable self : TestMapper.
Variable fs : FileSystem.

Lemma under_root_segments rel :
  under_root self rel
  = mkPath (anchored (project_root self)) (segments (project_root self) ++ rel).
Proof. done. Qed.

Lemma name_under_root dirs file : name (under_root self (dirs ++ [file])) = file.
Proof.
  rewrite under_root_segments. unfold name; simpl.
  by rewrite app_assoc, last_snoc.
Qed.

Lemma stem_dot_py foo :
  foo ≠ "" → ∀ dirs, stem (under_root self (dirs ++ [foo +:+ ".py"])) = foo.
Proof.
  intros Hfoo dirs. unfold stem. rewrite name_under_root, rfind_app_dot_py.
  rewrite str_app_length. simpl.
  rewrite bool_decide_eq_true_2 by (destruct foo; [done | simpl; lia]).
  rewrite bool_decide_eq_true_2 by lia. simpl. apply slice_to_app.
Qed.

(** A loop that only appends: what it adds is what each round adds. *)
Lemma foldl_append_iff {A B} (step : list B → A → list B) (adds : A → B → Prop) :
  (∀ acc a x, x ∈ step acc a ↔ x ∈ acc ∨ adds a x) →
  ∀ l acc x, x ∈ foldl step acc l ↔ x ∈ acc ∨ ∃ a, a ∈ l ∧ adds a x.
Proof.
  intros Hstep l. induction l as [|a l IH]; intros acc x; simpl.
  - split; [by left | intros [H | (a & H & _)]; [done | by apply elem_of_nil in H]].
  - rewrite IH, Hstep. setoid_rewrite elem_of_cons. split.
    + intros [[H | H] | (b & Hb & H)]; [by left | right; exists a; auto
                                        | right; exists b; auto].
    + intros [H | (b & [-> | Hb] & H)]; [by left; left | by left; right
                                         | right; by exists b].
Qed.

(** The candidates of a source file: in each test directory that exists,
    each pattern directly in it and, for a source file in a subdirectory
    of the root, in the mirrored subdirectory. *)
Lemma elem_of_get_test_candidates source x :
  x ∈ _get_test_candidates self fs source ↔
  ∃ test_dir pattern,
    test_dir ∈ ["tests"; "test"]
    ∧ path_exists fs (project_root self / test_dir) = true
    ∧ pattern ∈ ["test_" +:+ stem source +:+ ".py"; stem source +:+ "_test.py"]
    ∧ (x = (project_root self / test_dir / pattern)%path
       ∨ ∃ rel_path,
           relative_to source (project_root self) = Some rel_path
           ∧ (1 < length (drop_src (parts rel_path)))%nat
           ∧ x = (joinpath (project_root self / test_dir)
                    (of_segments (take (length (drop_src (parts rel_path)) - 1)
                                       (drop_src (parts rel_path))))
                  / pattern)%path).
Proof.
  unfold _get_test_candidates.
  rewrite (foldl_append_iff _
    (λ test_dir x,
       path_exists fs (project_root self / test_dir) = true
       ∧ ∃ pattern,
           pattern ∈ ["test_" +:+ stem source +:+ ".py"; stem source +:+ "_test.py"]
           ∧ (x = (project_root self / test_dir / pattern)%path
              ∨ ∃ rel_path,
                  relative_to source (project_root self) = Some rel_path
                  ∧ (1 < length (drop_src (parts rel_path)))%nat
                  ∧ x = (joinpath (project_root self / test_dir)
                           (of_segments (take (length (drop_src (parts rel_path)) - 1)
                                              (drop_src (parts rel_path))))
                         / pattern)%path))).
  - split.
    + intros [H | (d & Hd & Hex & p & Hp & Hx)]; [by apply elem_of_nil in H |].
      by exists d, p.
    + intros (d & p & Hd & Hex & Hp & Hx). right. exists d. split; [done |].
      split; [done |]. by exists p.
  - intros acc test_dir y. destruct (path_exists fs (project_root self / test_dir)).
    + rewrite (foldl_append_iff _
        (λ pattern x,
           x = (project_root self / test_dir / pattern)%path
           ∨ ∃ rel_path,
               relative_to source (project_root self) = Some rel_path
               ∧ (1 < length (drop_src (parts rel_path)))%nat
               ∧ x = (joinpath (project_root self / test_dir)
                        (of_segments (take (length (drop_src (parts rel_path)) - 1)
                                           (drop_src (parts rel_path))))
                      / pattern)%path)).
      * split; [intros [H | H]; [by left | by right] | intros [H | [_ H]]; [by left | by right]].
      * intros acc' pattern z.
        destruct (relative_to source (project_root self)) as [rel_path|].
        -- case_bool_decide as Hlen.
           ++ rewrite !elem_of_app, !list_elem_of_singleton. split.
              ** intros [[H | ->] | ->]; [by left | right; by left |].
                 right; right. by exists rel_path.
              ** intros [H | [-> | (r & [= <-] & _ & ->)]];
                   [by left; left | by left; right | by right].
           ++ rewrite elem_of_app, list_elem_of_singleton. split.
              ** intros [H | ->]; [by left | right; by left].
              ** intros [H | [-> | (r & [= <-] & Hr & _)]]; [by left | by right | done].
        -- rewrite elem_of_app, list_elem_of_singleton. split.
           ++ intros [H | ->]; [by left | right; by left].
           ++ intros [H | [-> | (r & [=] & _)]]; [by left | by right].
    + split; [by left | intros [H | [[=] _]]; done].
Qed.

(** In a test directory that exists, each pattern is tried directly and,
    for a source file in a subdirectory, in the mirrored subdirectory. *)
Lemma get_test_candidates_under rel test_dir pattern :
  test_dir ∈ ["tests"; "test"] →
  path_exists fs (project_root self / test_dir) = true →
  pattern ∈ ["test_" +:+ stem (under_root self rel) +:+ ".py";
             stem (under_root self rel) +:+ "_test.py"] →
  (project_root self / test_dir / pattern)%path
    ∈ _get_test_candidates self fs (under_root self rel)
  ∧ ((1 < length (drop_src rel))%nat →
     (joinpath (project_root self / test_dir)
               (of_segments (take (length (drop_src rel) - 1) (drop_src rel)))
      / pattern)%path
       ∈ _get_test_candidates self fs (under_root self rel)).
Proof.
  intros Hdir Hex Hpat. split.
  - apply elem_of_get_test_candidates. exists test_dir, pattern. auto.
  - intros Hlen. apply elem_of_get_test_candidates. exists test_dir, pattern.
    split; [done |]. split; [done |]. split; [done |]. right.
    exists (of_segments rel). by rewrite relative_to_under_root.
Qed.

End candidates.

Section naming.
Variable self : TestMapper.
Variable fs : FileSystem.

(** The candidates of [src/dirs/foo.py] in an existing test directory:
    directly in it and under [dirs] in it. *)
Lemma get_test_candidates_src dirs foo test_dir pattern :
  foo ≠ "" →
  test_dir ∈ ["tests"; "test"] →
  path_exists fs (project_root self / test_dir) = true →
  pattern ∈ ["test_" +:+ foo +:+ ".py"; foo +:+ "_test.py"] →
  under_root self [test_dir; pattern]
    ∈ _get_test_candidates self fs (under_root self ("src" :: dirs ++ [foo +:+ ".py"]))
  ∧ under_root self (test_dir :: dirs ++ [pattern])
    ∈ _get_test_candidates self fs (under_root self ("src" :: dirs ++ [foo +:+ ".py"])).
Proof.
  intros Hfoo Hdir Hex Hpat.
  pose proof (stem_dot_py self foo Hfoo ("src" :: dirs)) as Hstem.
  destruct (get_test_candidates_under self fs ("src" :: dirs ++ [foo +:+ ".py"])
              test_dir pattern Hdir Hex) as [Hdirect Hmirror].
  { change ("src" :: dirs ++ [foo +:+ ".py"]) with (("src" :: dirs) ++ [foo +:+ ".py"]).
    by rewrite Hstem. }
  assert (Hflat : (project_root self / test_dir / pattern)%path
                  = under_root self [test_dir; pattern]).
  { rewrite under_root_segments. unfold truediv; simpl. by rewrite <- app_assoc. }
  rewrite Hflat in Hdirect. split; [done |].
  destruct dirs as [|d dirs]; [done |].
  rewrite drop_src_cons_src in Hmirror.
  replace (length ((d :: dirs) ++ [foo +:+ ".py"]) - 1)%nat with (length (d :: dirs))
    in Hmirror by (rewrite length_app; simpl; lia).
  rewrite take_app_length in Hmirror.
  replace (under_root self (test_dir :: (d :: dirs) ++ [pattern]))
    with (joinpath (project_root self / test_dir) (of_segments (d :: dirs)) / pattern)%path.
  - apply Hmirror. rewrite length_app. simpl. lia.
  - rewrite under_root_segments. unfold truediv, joinpath; simpl.
    f_equal. by rewrite <- !app_assoc.
Qed.

(** A test file that can be opened lies in a directory that exists. *)
Lemma test_dir_exists test_dir rest f :
  fs_files fs !! under_root self (test_dir :: rest) = Some f →
  path_exists fs (project_root self / test_dir) = true.
Proof.
  rewrite under_root_segments. unfold truediv. intros Hf.
  apply (path_exists_above fs _ _ rest f).
  by rewrite <- app_assoc.
Qed.

End naming.

(** C8: for a changed file [src/dirs/foo.py] that is not a test file and
    a test-file set containing [tests/dirs/test_foo.py] (for instance
    [src/pkg/foo.py] and [tests/pkg/test_foo.py]), the result contains
    that test file.  Strategy B tries both candidate names, [test_foo.py]
    and [foo_test.py], directly in each test directory ([tests], [test])
    and in its subdirectory mirroring the changed file's directories
    with the leading [src] stripped: whichever of these paths is in the
    test-file set is in the result. *)
Theorem C8_naming_mirrors_source_tree self fs changed tests dirs foo r :
  foo ≠ "" →
  _is_test_file (under_root self ("src" :: dirs ++ [foo +:+ ".py"])) = false →
  under_root self ("src" :: dirs ++ [foo +:+ ".py"]) ∈ changed →
  find_affected_tests self fs changed (Some tests) = Ok r →
  (under_root self ("tests" :: dirs ++ ["test_" +:+ foo +:+ ".py"]) ∈ tests →
   under_root self ("tests" :: dirs ++ ["test_" +:+ foo +:+ ".py"]) ∈ r)
  ∧ (∀ test_dir pattern,
       test_dir ∈ ["tests"; "test"] →
       pattern ∈ ["test_" +:+ foo +:+ ".py"; foo +:+ "_test.py"] →
       (under_root self [test_dir; pattern] ∈ tests →
        under_root self [test_dir; pattern] ∈ r)
       ∧ (under_root self (test_dir :: dirs ++ [pattern]) ∈ tests →
          under_root self (test_dir :: dirs ++ [pattern]) ∈ r)).
Proof.
  intros Hfoo Hsrc Hchanged Hr.
  assert (Hopen : imports_extracted fs tests).
  { apply (find_affected_tests_returns_iff self fs changed tests). by exists r. }
  assert (Hall : ∀ test_dir pattern rest,
            test_dir ∈ ["tests"; "test"] →
            pattern ∈ ["test_" +:+ foo +:+ ".py"; foo +:+ "_test.py"] →
            rest = [pattern] ∨ rest = dirs ++ [pattern] →
            under_root self (test_dir :: rest) ∈ tests →
            under_root self (test_dir :: rest) ∈ r).
  { intros test_dir pattern rest Hdir Hpat Hrest Htest.
    destruct (Hopen _ Htest) as [imports Himports].
    destruct (extract_imports_Ok_present fs _ imports Himports) as [f Hf].
    apply (find_affected_tests_iff self fs changed tests r Hr).
    right; left. exists (under_root self ("src" :: dirs ++ [foo +:+ ".py"])).
    split; [done |]. split; [done |]. split; [|done].
    pose proof (test_dir_exists self fs test_dir rest f Hf) as Hex.
    destruct (get_test_candidates_src self fs dirs foo test_dir pattern
                Hfoo Hdir Hex Hpat) as [Hdirect Hmirror].
    by destruct Hrest as [-> | ->]. }
  split.
  - apply (Hall "tests" ("test_" +:+ foo +:+ ".py")); [by left | by left | by right].
  - intros test_dir pattern Hdir Hpat. split; apply (Hall test_dir pattern); auto.
Qed.

Lemma C8_witness :
  of_string "tests/pkg/test_foo.py"
  ∈ ({[ of_string "tests/pkg/test_foo.py"; of_string "tests/test_api.py" ]} : gset Path).
Proof.
  refine (proj1 (C8_naming_mirrors_source_tree sample_mapper sample_fs
                   {[ of_string "src/pkg/foo.py" ]} sample_tests ["pkg"] "foo"
                   {[ of_string "tests/pkg/test_foo.py"; of_string "tests/test_api.py" ]}
                   _ _ _ _) _).
  - discriminate.
  - vm_refl.
  - by apply elem_of_singleton.
  - vm_refl.
  - vm_compute. reflexivity.
Defined.

(** ** Strategy C: import reachability *)

(** Every name of an import set is a first dotted segment. *)
Lemma extract_imports_first_segment fs p imports x :
  extract_imports fs p = Ok imports → x ∈ imports → PyStr.contains x "." = false.
Proof.
  unfold extract_imports. intros Hp Hx.
  destruct (open_and_parse fs p) as [tree|e].
  - injection Hp as <-. apply foldl_collect_import_iff in Hx.
    destruct Hx as [Hx | (n & _ & Hroot)]; [by apply not_elem_of_empty in Hx |].
    destruct n as [names | [module|] names level | kind children]; simpl in Hroot.
    + destruct Hroot as (a & _ & ->). apply split_first_contains.
    + destruct Hroot as [_ ->]. apply split_first_contains.
    + done.
    + done.
  - destruct e; try discriminate Hp;
      injection Hp as <-; by apply not_elem_of_empty in Hx.
Qed.

(** C9: a test file of the test-file set whose import set meets the
    root segments of the module identifiers of the changed files that
    resolve (to a non-empty identifier, as the code's truth test asks)
    is in the result; when no import name is empty this holds for the
    root of every identifier [get_module_path] returns.  Import
    extraction records first dotted segments only: no recorded name
    has a dot, and [from pkg.sub import f] contributes [pkg]. *)
Theorem C9_import_reachability self fs changed tests t imports r :
  t ∈ tests →
  extract_imports fs t = Ok imports →
  find_affected_tests self fs changed (Some tests) = Ok r →
  (imports ∩ changed_module_roots self changed ≠ ∅ → t ∈ r)
  ∧ (∀ f m, f ∈ changed → get_module_path self f = Some m →
            PyStr.split_first m "." ∈ imports → "" ∉ imports → t ∈ r)
  ∧ (∀ x, x ∈ imports → PyStr.contains x "." = false)
  ∧ extract_imports
      (one_file "tests/test_api.py"
         (Source (sample_module [ImportFrom (Some "pkg.sub") [mkAlias "f" None] 0])))
      (of_string "tests/test_api.py") = Ok {[ "pkg" ]}.
Proof.
  intros Ht Himports Hr.
  assert (Hmeet : imports ∩ changed_module_roots self changed ≠ ∅ → t ∈ r).
  { intros Hne. apply (find_affected_tests_iff self fs changed tests r Hr).
    right; right. split; [done |]. by exists imports. }
  split; [done |]. split; [| split; [| vm_refl]].
  - intros f m Hf Hm Hroot Hnonempty. apply Hmeet.
    intros Hempty. apply (not_elem_of_empty (C:=gset string) (PyStr.split_first m ".")).
    rewrite <- Hempty. apply elem_of_intersection. split; [done |].
    apply changed_module_roots_iff. exists f, m.
    split; [done |]. split; [done |]. split; [|done].
    intros ->. by apply Hnonempty.
  - intros x Hx. by apply (extract_imports_first_segment fs t imports).
Qed.

Lemma C9_witness :
  of_string "tests/test_api.py"
  ∈ ({[ of_string "tests/pkg/test_foo.py"; of_string "tests/test_api.py" ]} : gset Path).
Proof.
  pose proof (C9_import_reachability sample_mapper sample_fs
                {[ of_string "src/pkg/foo.py" ]} sample_tests
                (of_string "tests/test_api.py") {[ "pkg" ]}
                {[ of_string "tests/pkg/test_foo.py"; of_string "tests/test_api.py" ]})
    as H.
  apply H.
  - by vm_compute.
  - vm_refl.
  - vm_refl.
  - by vm_compute.
Defined.

(** The module root of anything below [tests] is [tests]. *)
Lemma module_root_under_tests self dirs file :
  ∃ m, get_module_path self (under_root self ("tests" :: dirs ++ [file])) = Some m
       ∧ m ≠ "" ∧ PyStr.split_first m "." = "tests".
Proof.
  rewrite get_module_path_no_src by done. eexists. split; [done |].
  destruct (dirs ++ [PyStr.replace file ".py" ""]) as [|y l] eqn:Hl.
  { by destruct dirs. }
  rewrite join_cons. split.
  - intros Hm. apply (f_equal String.length) in Hm.
    rewrite str_app_length in Hm. simpl in Hm. lia.
  - by apply (split_first_app_sep "tests" _ ".").
Qed.

(** C10: a changed file that is itself a test file, such as
    [tests/test_foo.py], contributes its module root [tests] to the
    changed module roots; every test file of the test-file set whose
    imports include [tests] is then in the result, whatever else has
    changed or not. *)
Theorem C10_changed_test_contributes_root self fs changed tests dirs file t imports r :
  under_root self ("tests" :: dirs ++ [file]) ∈ changed →
  t ∈ tests →
  extract_imports fs t = Ok imports →
  "tests" ∈ imports →
  find_affected_tests self fs changed (Some tests) = Ok r →
  "tests" ∈ changed_module_roots self changed ∧ t ∈ r.
Proof.
  intros Hchanged Ht Himports Hin Hr.
  destruct (module_root_under_tests self dirs file) as (m & Hm & Hne & Hroot).
  assert (Hroots : "tests" ∈ changed_module_roots self changed).
  { apply changed_module_roots_iff.
    by exists (under_root self ("tests" :: dirs ++ [file])), m. }
  split; [done |].
  apply (find_affected_tests_iff self fs changed tests r Hr).
  right; right. split; [done |]. exists imports. split; [done |].
  intros Hempty. apply (not_elem_of_empty (C:=gset string) "tests").
  rewrite <- Hempty. by apply elem_of_intersection.
Qed.

Lemma C10_witness :
  "tests" ∈ changed_module_roots sample_mapper {[ of_string "tests/test_foo.py" ]}
  ∧ of_string "tests/test_shared.py"
    ∈ ({[ of_string "tests/test_foo.py"; of_string "tests/test_shared.py" ]} : gset Path).
Proof.
  apply (C10_changed_test_contributes_root sample_mapper sample_fs
           {[ of_string "tests/test_foo.py" ]} sample_tests [] "test_foo.py"
           (of_string "tests/test_shared.py") {[ "tests" ]}).
  - by apply elem_of_singleton.
  - by vm_compute.
  - vm_refl.
  - by apply elem_of_singleton.
  - vm_refl.
Defined.

(** * Further properties of the mapper *)

(** ** Test discovery *)

(** A loop that only unites: what it adds is what each round adds. *)
Lemma foldl_union_iff {A K} `{Countable K}
    (step : gset K → A → gset K) (adds : A → K → Prop) :
  (∀ acc a x, x ∈ step acc a ↔ x ∈ acc ∨ adds a x) →
  ∀ l acc x, x ∈ foldl step acc l ↔ x ∈ acc ∨ ∃ a, a ∈ l ∧ adds a x.
Proof.
  intros Hstep l. induction l as [|a l IH]; intros acc x; simpl.
  - split; [by left | intros [Hx | (a & Ha & _)]; [done | by apply elem_of_nil in Ha]].
  - rewrite IH, Hstep. setoid_rewrite elem_of_cons. split.
    + intros [[Hx | Hx] | (b & Hb & Hx)]; [by left | right; exists a; auto
                                           | right; exists b; auto].
    + intros [Hx | (b & [-> | Hb] & Hx)]; [by left; left | by left; right
                                           | right; by exists b].
Qed.

Lemma elem_of_find_test_files self fs test_dirs p :
  p ∈ find_test_files self fs test_dirs ↔
  ∃ d, d ∈ default ["tests"; "test"] test_dirs
       ∧ path_exists fs (joinpath (project_root self) (of_string d)) = true
       ∧ (p ∈ rglob fs (joinpath (project_root self) (of_string d)) "test_" ".py"
          ∨ p ∈ rglob fs (joinpath (project_root self) (of_string d)) "" "_test.py").
Proof.
  unfold find_test_files.
  rewrite (foldl_union_iff _
    (λ d p, path_exists fs (joinpath (project_root self) (of_string d)) = true
            ∧ (p ∈ rglob fs (joinpath (project_root self) (of_string d)) "test_" ".py"
               ∨ p ∈ rglob fs (joinpath (project_root self) (of_string d)) "" "_test.py"))).
  - split; [intros [Hp | Hp]; [by apply not_elem_of_empty in Hp | done] | by right].
  - intros acc d x. cbv zeta.
    destruct (path_exists fs (joinpath (project_root self) (of_string d))).
    + rewrite !elem_of_union. split.
      * intros [[Hx | Hx] | Hx]; [by left | right; auto | right; auto].
      * intros [Hx | [_ [Hx | Hx]]]; [by left; left | by left; right | by right].
    + split; [by left | by intros [Hx | [[=] _]]].
Qed.

Lemma elem_of_rglob fs dir pre suf p :
  p ∈ rglob fs dir pre suf ↔
  is_dir fs dir = true
  ∧ (p ∈ fs_entries fs ∨ p ∈ fs_dangling fs)
  ∧ is_dir fs (parent p) = true ∧ blocked fs p = false
  ∧ fnmatch (name p) pre suf = true
  ∧ ∃ rel, rel ≠ [] ∧ p = joinpath dir (of_segments rel).
Proof.
  unfold rglob. destruct (is_dir fs dir) eqn:Hdir.
  - rewrite elem_of_filter, elem_of_union. split.
    + intros ((Hrel & Hne & Hmatch & Hparent & Hclear) & Hp).
      do 5 (split; [done |]).
      destruct Hrel as [rel Hrel]. apply relative_to_Some in Hrel as [-> Hanch].
      destruct rel as [a rel]; simpl in Hanch; subst a. exists rel. split; [|done].
      intros ->. apply Hne. unfold joinpath; simpl. rewrite app_nil_r. by destruct dir.
    + intros (_ & Hp & Hparent & Hclear & Hmatch & rel & Hrel & ->).
      split; [|done]. split; [|split; [|done]].
      * exists (of_segments rel). destruct dir as [a segs]. apply relative_to_under.
      * intros Heq. destruct dir as [a segs]. unfold joinpath in Heq; simpl in Heq.
        injection Heq as Heq. apply Hrel.
        apply (f_equal length) in Heq. rewrite length_app in Heq.
        destruct rel; [done | simpl in Heq; lia].
  - split; [by intros ?%not_elem_of_empty | by intros [? _]].
Qed.

Lemma fnmatch_true name pre suf :
  fnmatch name pre suf = true →
  PyStr.startswith name pre = true ∧ PyStr.endswith name suf = true.
Proof. unfold fnmatch. by intros [[_ ?]%andb_true_iff ?]%andb_true_iff. Qed.

Lemma endswith_trans s mid suf :
  PyStr.endswith s mid = true → PyStr.endswith mid suf = true →
  PyStr.endswith s suf = true.
Proof.
  rewrite !endswith_spec. intros [t ->] [u ->]. exists (t +:+ u).
  by rewrite str_app_assoc.
Qed.

(** What discovery returns: test files by name, below a test directory. *)
Lemma discovered_entry self fs test_dirs p :
  p ∈ find_test_files self fs test_dirs →
  _is_test_file p = true
  ∧ PyStr.endswith (name p) ".py" = true
  ∧ (p ∈ fs_entries fs ∨ p ∈ fs_dangling fs)
  ∧ blocked fs p = false
  ∧ ∃ d rel, d ∈ default ["tests"; "test"] test_dirs
             ∧ is_dir fs (joinpath (project_root self) (of_string d)) = true
             ∧ rel ≠ []
             ∧ p = joinpath (joinpath (project_root self) (of_string d)) (of_segments rel).
Proof.
  intros (d & Hd & Hex & Hp)%elem_of_find_test_files.
  assert (Hmatch : (PyStr.startswith (name p) "test_" = true
                    ∧ PyStr.endswith (name p) ".py" = true)
                   ∨ PyStr.endswith (name p) "_test.py" = true).
  { destruct Hp as [(_ & _ & _ & _ & Hm & _)%elem_of_rglob
                   | (_ & _ & _ & _ & Hm & _)%elem_of_rglob];
      apply fnmatch_true in Hm as [? ?]; [by left | by right]. }
  assert (Hbelow : is_dir fs (joinpath (project_root self) (of_string d)) = true
                   ∧ (p ∈ fs_entries fs ∨ p ∈ fs_dangling fs)
                   ∧ blocked fs p = false
                   ∧ ∃ rel, rel ≠ []
                            ∧ p = joinpath (joinpath (project_root self) (of_string d))
                                    (of_segments rel)).
  { by destruct Hp as [(? & ? & _ & ? & _ & ?)%elem_of_rglob
                      | (? & ? & _ & ? & _ & ?)%elem_of_rglob]. }
  destruct Hbelow as (Hdir & Hentry & Hclear & rel & Hrel & Hprel).
  split; [| split; [| split; [done | split; [done | by exists d, rel]]]].
  - unfold _is_test_file. apply orb_true_iff. destruct Hmatch as [[? _] | ?]; auto.
  - destruct Hmatch as [[_ ?] | Hm]; [done |].
    by apply (endswith_trans _ "_test.py").
Qed.

(** X1: every path that discovery returns is a test file by the naming
    predicate, has a name ending in [.py], and lies strictly below a
    listed test directory, joined to the project root as a path, that
    is a directory.  (It need not exist: a dangling link is returned
    as well.) *)
Theorem find_test_files_below_test_dir self fs test_dirs p :
  p ∈ find_test_files self fs test_dirs →
  _is_test_file p = true
  ∧ PyStr.endswith (name p) ".py" = true
  ∧ ∃ d rel, d ∈ default ["tests"; "test"] test_dirs
             ∧ is_dir fs (joinpath (project_root self) (of_string d)) = true
             ∧ rel ≠ []
             ∧ p = joinpath (joinpath (project_root self) (of_string d)) (of_segments rel).
Proof.
  intros (Htest & Hpy & _ & _ & Hbelow)%discovered_entry. by split; [| split].
Qed.

Lemma find_test_files_below_test_dir_witness :
  _is_test_file (of_string "lib/tests/unit/test_link.py") = true
  ∧ PyStr.endswith (name (of_string "lib/tests/unit/test_link.py")) ".py" = true
  ∧ ∃ d rel, d ∈ default ["tests"; "test"] (Some ["lib/tests"])
             ∧ is_dir linked_fs (joinpath (project_root sample_mapper) (of_string d)) = true
             ∧ rel ≠ []
             ∧ of_string "lib/tests/unit/test_link.py"
               = joinpath (joinpath (project_root sample_mapper) (of_string d))
                   (of_segments rel).
Proof.
  apply (find_test_files_below_test_dir sample_mapper linked_fs (Some ["lib/tests"])).
  vm_compute. reflexivity.
Defined.



(** ** Selection with discovered test files *)

Lemma import_sets_raises fs files e :
  import_sets fs files = Raise e → ∃ t, t ∈ files ∧ extract_imports fs t = Raise e.
Proof.
  induction files as [|f files IH]; simpl; [done |].
  destruct (extract_imports fs f) as [i|e'] eqn:Hf; simpl.
  - destruct (import_sets fs files) as [others|e'] eqn:Hrest; simpl; [done |].
    intros [= ->]. destruct (IH eq_refl) as (t & Ht & He). exists t. split; [by right | done].
  - intros [= ->]. exists f. split; [by left | done].
Qed.

(** An exception leaving the selector is one that [extract_imports]
    raised on a file of the test-file set. *)
Lemma find_affected_tests_raises self fs changed tests e :
  find_affected_tests self fs changed (Some tests) = Raise e →
  ∃ t, t ∈ tests ∧ extract_imports fs t = Raise e.
Proof.
  rewrite find_affected_tests_union. unfold union_of_strategies, strategy_imports.
  destruct (import_sets fs (elements tests)) as [table|e'] eqn:Htable; simpl; [done |].
  intros [= ->]. destruct (import_sets_raises fs _ _ Htable) as (t & Ht & He).
  exists t. by rewrite <- elem_of_elements.
Qed.

Lemma find_affected_tests_discovery self fs changed :
  find_affected_tests self fs changed None
  = find_affected_tests self fs changed (Some (find_test_files self fs None)).
Proof. done. Qed.

Lemma candidate_is_test_file self fs source x :
  x ∈ _get_test_candidates self fs source → _is_test_file x = true.
Proof.
  intros (d & pattern & _ & _ & Hpat & Hx)%elem_of_get_test_candidates.
  assert (Hname : name x = pattern).
  { destruct Hx as [-> | (rel_path & _ & _ & ->)]; unfold name, truediv; simpl;
      by rewrite last_snoc. }
  unfold _is_test_file. rewrite Hname. apply orb_true_iff.
  rewrite !elem_of_cons in Hpat. destruct Hpat as [-> | [-> | Hnil]].
  - left. apply startswith_spec. by eexists.
  - right. apply endswith_spec. by eexists.
  - by apply elem_of_nil in Hnil.
Qed.

(** X3: with discovered test files (no test-file set supplied), every
    selected path is a test file by the naming predicate. *)
Theorem discovery_selects_test_files self fs changed r x :
  find_affected_tests self fs changed None = Ok r →
  x ∈ r → _is_test_file x = true.
Proof.
  rewrite find_affected_tests_discovery. intros Hr Hx.
  apply (find_affected_tests_iff self fs changed _ r Hr) in Hx.
  destruct Hx as [[_ Hx] | [(f & _ & _ & Hx & _) | [Hx _]]].
  - done.
  - by apply (candidate_is_test_file self fs f).
  - by apply (discovered_entry self fs None).
Qed.


Lemma discovery_selects_test_files_witness :
  _is_test_file (of_string "tests/test_api.py") = true.
Proof.
  apply (discovery_selects_test_files sample_mapper sample_fs
           {[ of_string "src/pkg/foo.py" ]}
           {[ of_string "tests/pkg/test_foo.py"; of_string "tests/test_api.py" ]}).
  - vm_refl.
  - vm_compute. reflexivity.
Defined.


(** ** Monotonicity and empty inputs *)

Lemma changed_module_roots_mono self changed changed' :
  changed ⊆ changed' → changed_module_roots self changed ⊆ changed_module_roots self changed'.
Proof.
  intros Hsub r (f & m & Hf & Hm & Hne & ->)%changed_module_roots_iff.
  apply changed_module_roots_iff. exists f, m. auto.
Qed.

(** X5: selection is monotone: with more changed files and more test
    files, whenever both calls return, nothing selected before is lost. *)
Theorem find_affected_tests_monotone self fs changed changed' tests tests' r r' :
  changed ⊆ changed' → tests ⊆ tests' →
  find_affected_tests self fs changed (Some tests) = Ok r →
  find_affected_tests self fs changed' (Some tests') = Ok r' →
  r ⊆ r'.
Proof.
  intros Hchanged Htests Hr Hr' x Hx.
  apply (find_affected_tests_iff self fs changed tests r Hr) in Hx.
  apply (find_affected_tests_iff self fs changed' tests' r' Hr').
  destruct Hx as [[Hx Ht] | [(f & Hf & Hnot & Hc & Ht) | (Ht & imports & Hi & Hne)]].
  - left. auto.
  - right; left. exists f. auto.
  - right; right. split; [auto |]. exists imports. split; [done |].
    apply set_choose_L in Hne as [y [Hy Hroot]%elem_of_intersection].
    apply (changed_module_roots_mono self changed changed' Hchanged) in Hroot.
    intros Hempty. apply (not_elem_of_empty (C:=gset string) y).
    rewrite <- Hempty. by apply elem_of_intersection.
Qed.

Lemma find_affected_tests_monotone_witness :
  ({[ of_string "tests/pkg/test_foo.py"; of_string "tests/test_api.py" ]} : gset Path)
  ⊆ {[ of_string "tests/pkg/test_foo.py"; of_string "tests/test_api.py";
       of_string "tests/test_new.py"; of_string "tests/test_shared.py" ]}.
Proof.
  apply (find_affected_tests_monotone sample_mapper sample_fs
           {[ of_string "src/pkg/foo.py" ]}
           {[ of_string "src/pkg/foo.py"; of_string "tests/test_new.py" ]}
           {[ of_string "tests/pkg/test_foo.py"; of_string "tests/test_api.py" ]}
           sample_tests).
  - apply union_subseteq_l.
  - unfold sample_tests. set_solver.
  - vm_refl.
  - vm_refl.
Defined.

Lemma changed_module_roots_empty self : changed_module_roots self ∅ = ∅.
Proof.
  apply set_eq. intros r. rewrite changed_module_roots_iff. split.
  - intros (f & _ & Hf & _). by apply not_elem_of_empty in Hf.
  - intros Hr. by apply not_elem_of_empty in Hr.
Qed.

(** X6: with no changed file nothing is selected, yet every file of
    the test-file set is still handed to [extract_imports]: the call
    returns the empty set when [extract_imports] returns on all of them
    and raises otherwise. *)
Theorem find_affected_tests_no_change self fs tests :
  (imports_extracted fs tests → find_affected_tests self fs ∅ (Some tests) = Ok ∅)
  ∧ (¬ imports_extracted fs tests →
     ∃ e, find_affected_tests self fs ∅ (Some tests) = Raise e).
Proof.
  split.
  - intros Hopen.
    destruct (proj2 (find_affected_tests_returns_iff self fs ∅ tests) Hopen) as [r Hr].
    rewrite Hr. f_equal. apply set_eq. intros x.
    rewrite (find_affected_tests_iff self fs ∅ tests r Hr x).
    rewrite changed_module_roots_empty. split.
    + intros [[Hx _] | [(f & Hf & _) | (_ & i & _ & Hne)]].
      * by apply not_elem_of_empty in Hx.
      * by apply not_elem_of_empty in Hf.
      * destruct Hne. apply set_eq. intros y. rewrite elem_of_intersection. split.
        -- by intros [_ Hy].
        -- intros Hy. by apply not_elem_of_empty in Hy.
    + intros Hx. by apply not_elem_of_empty in Hx.
  - intros Hnot. destruct (find_affected_tests self fs ∅ (Some tests)) as [r|e] eqn:Hr.
    + destruct Hnot. apply (find_affected_tests_returns_iff self fs ∅ tests). by exists r.
    + by exists e.
Qed.

Lemma sample_tests_extracted : imports_extracted sample_fs sample_tests.
Proof.
  intros t Ht. unfold sample_tests in Ht. rewrite !elem_of_union, !elem_of_singleton in Ht.
  destruct Ht as [[[[[-> | ->] | ->] | ->] | ->] | ->]; eexists; vm_compute; reflexivity.
Qed.

Lemma find_affected_tests_no_change_witness :
  find_affected_tests sample_mapper sample_fs ∅ (Some sample_tests) = Ok ∅
  ∧ ∃ e, find_affected_tests sample_mapper sample_fs ∅
           (Some {[ of_string "tests/test_gone.py" ]}) = Raise e.
Proof.
  split.
  - apply (proj1 (find_affected_tests_no_change sample_mapper sample_fs sample_tests)).
    apply sample_tests_extracted.
  - apply (proj2 (find_affected_tests_no_change sample_mapper sample_fs
                    {[ of_string "tests/test_gone.py" ]})).
    intros Hopen. destruct (Hopen (of_string "tests/test_gone.py")) as [f Hf].
    + by apply elem_of_singleton.
    + vm_compute in Hf. discriminate Hf.
Defined.


(** ** What each strategy can select *)

(** X8: strategies A and B only select test files by the naming
    predicate; a selected path that is not one was selected by import
    analysis: it is in the test-file set and its imports meet the
    changed module roots. *)
Theorem only_imports_select_other_names self fs changed tests r x :
  find_affected_tests self fs changed (Some tests) = Ok r →
  x ∈ r → _is_test_file x = false →
  x ∈ tests
  ∧ ∃ imports, extract_imports fs x = Ok imports
               ∧ imports ∩ changed_module_roots self changed ≠ ∅.
Proof.
  intros Hr Hx Hnot. apply (find_affected_tests_iff self fs changed tests r Hr) in Hx.
  destruct Hx as [[_ Hx] | [(f & _ & _ & Hx & _) | Hx]]; [congruence | | done].
  apply candidate_is_test_file in Hx. congruence.
Qed.

Lemma only_imports_select_other_names_witness :
  of_string "tests/helpers.py" ∈ ({[ of_string "tests/helpers.py" ]} : gset Path)
  ∧ ∃ imports,
      extract_imports
        (one_file "tests/helpers.py" (Source (sample_module [Import [mkAlias "pkg" None]])))
        (of_string "tests/helpers.py") = Ok imports
      ∧ imports ∩ changed_module_roots sample_mapper {[ of_string "src/pkg/foo.py" ]} ≠ ∅.
Proof.
  apply (only_imports_select_other_names sample_mapper
           (one_file "tests/helpers.py" (Source (sample_module [Import [mkAlias "pkg" None]])))
           {[ of_string "src/pkg/foo.py" ]} {[ of_string "tests/helpers.py" ]}
           {[ of_string "tests/helpers.py" ]}).
  - vm_refl.
  - by apply elem_of_singleton.
  - vm_refl.
Defined.

(** ** Resolution below and outside the root *)

(** X9: below the project root, a path fails to resolve exactly when it
    is the root itself or its [src] directory. *)
Theorem get_module_path_under_root_None self rel :
  get_module_path self (under_root self rel) = None ↔ rel = [] ∨ rel = ["src"].
Proof.
  rewrite get_module_path_under. split.
  - destruct (last (drop_src rel)) as [final|] eqn:Hlast; [done |]. intros _.
    apply last_None in Hlast. destruct rel as [|first rest]; [by left |].
    unfold drop_src in Hlast. case_bool_decide as Hsrc; [|done]. subst. by right.
  - by intros [-> | ->].
Qed.

(** Outside the root only the direct candidates remain. *)
Lemma direct_candidates_only self fs source x :
  (∀ rel, source ≠ under_root self rel) →
  x ∈ _get_test_candidates self fs source →
  ∃ test_dir pattern,
    test_dir ∈ ["tests"; "test"]
    ∧ pattern ∈ ["test_" +:+ stem source +:+ ".py"; stem source +:+ "_test.py"]
    ∧ x = under_root self [test_dir; pattern].
Proof.
  intros Hout (d & pattern & Hd & _ & Hpat & Hx)%elem_of_get_test_candidates.
  exists d, pattern. split; [done |]. split; [done |].
  destruct Hx as [-> | (rel_path & Hrel & _)].
  - rewrite under_root_segments. unfold truediv; simpl. by rewrite <- app_assoc.
  - by rewrite (proj2 (relative_to_None source (project_root self)) Hout) in Hrel.
Qed.

(** X10: for a source file that is not below the project root (for
    instance a relative path when the root is anchored), the candidates
    are only the two names directly in each existing test directory:
    no mirrored subdirectory is tried. *)
Theorem get_test_candidates_outside_root self fs source x :
  (∀ rel, source ≠ under_root self rel) →
  x ∈ _get_test_candidates self fs source →
  ∃ test_dir pattern,
    test_dir ∈ ["tests"; "test"]
    ∧ pattern ∈ ["test_" +:+ stem source +:+ ".py"; stem source +:+ "_test.py"]
    ∧ x = under_root self [test_dir; pattern].
Proof. apply direct_candidates_only. Qed.

Lemma get_test_candidates_outside_root_witness :
  ∃ test_dir pattern,
    test_dir ∈ ["tests"; "test"]
    ∧ pattern ∈ ["test_" +:+ stem (of_string "src/pkg/foo.py") +:+ ".py";
                 stem (of_string "src/pkg/foo.py") +:+ "_test.py"]
    ∧ of_string "/work/tests/test_foo.py"
      = under_root (new_TestMapper "/work") [test_dir; pattern].
Proof.
  apply (get_test_candidates_outside_root (new_TestMapper "/work")
           (one_file "/work/tests/test_foo.py" (Source (sample_module [])))
           (of_string "src/pkg/foo.py")).
  - intros rel. vm_compute. discriminate.
  - vm_compute. apply list_elem_of_here.
Defined.

(** ** Matching by package root *)

Lemma module_root_of_package self top dirs file :
  top ≠ "src" → PyStr.contains top "." = false →
  ∃ m, get_module_path self (under_root self (top :: dirs ++ [file])) = Some m
       ∧ get_module_path self (under_root self ("src" :: top :: dirs ++ [file])) = Some m
       ∧ m ≠ "" ∧ PyStr.split_first m "." = top.
Proof.
  intros Hsrc Hdot.
  exists (PyStr.join "." (top :: dirs ++ [PyStr.replace file ".py" ""])).
  split; [by apply get_module_path_no_src |].
  split; [exact (get_module_path_src self (top :: dirs) file) |].
  destruct (dirs ++ [PyStr.replace file ".py" ""]) as [|y l] eqn:Hl.
  { by destruct dirs. }
  rewrite join_cons. split.
  - intros Hm. apply (f_equal String.length) in Hm.
    rewrite !str_app_length in Hm. simpl in Hm. lia.
  - by apply (split_first_app_sep top _ ".").
Qed.

(** X11: matching is by top-level package only: when any file of a
    package [top] changes (below [top/] or [src/top/]), every test file
    of the set that imports anything whose first dotted segment is
    [top] is selected, whichever module of the package it imports. *)
Theorem package_change_selects_importers self fs changed tests top dirs file t imports r :
  top ≠ "src" → PyStr.contains top "." = false →
  under_root self (top :: dirs ++ [file]) ∈ changed
  ∨ under_root self ("src" :: top :: dirs ++ [file]) ∈ changed →
  t ∈ tests →
  extract_imports fs t = Ok imports →
  top ∈ imports →
  find_affected_tests self fs changed (Some tests) = Ok r →
  t ∈ r.
Proof.
  intros Hsrc Hdot Hchanged Ht Himports Hin Hr.
  destruct (module_root_of_package self top dirs file Hsrc Hdot)
    as (m & Hm1 & Hm2 & Hne & Hroot).
  apply (find_affected_tests_iff self fs changed tests r Hr).
  right; right. split; [done |]. exists imports. split; [done |].
  intros Hempty. apply (not_elem_of_empty (C:=gset string) top).
  rewrite <- Hempty. apply elem_of_intersection. split; [done |].
  apply changed_module_roots_iff.
  destruct Hchanged as [Hc | Hc]; eexists _, m; (split; [exact Hc |]); auto.
Qed.

Lemma package_change_selects_importers_witness :
  of_string "tests/test_api.py"
  ∈ ({[ of_string "tests/pkg/test_foo.py"; of_string "tests/test_api.py" ]} : gset Path).
Proof.
  refine (package_change_selects_importers sample_mapper sample_fs
            {[ of_string "src/pkg/foo.py" ]} sample_tests "pkg" [] "foo.py"
            (of_string "tests/test_api.py") {[ "pkg" ]}
            {[ of_string "tests/pkg/test_foo.py"; of_string "tests/test_api.py" ]}
            _ _ _ _ _ _ _).
  - discriminate.
  - reflexivity.
  - right. by apply elem_of_singleton.
  - vm_compute. reflexivity.
  - vm_refl.
  - by apply elem_of_singleton.
  - vm_refl.
Defined.

(** * Properties of the change analyzer *)
Section analyzer_facts.
Import analyzer.
Variable repo : Repo.

Lemma elem_of_add_path changed_files path p :
  p ∈ add_path changed_files path ↔ p ∈ changed_files ∨ side_path path p.
Proof.
  unfold add_path, side_path. destruct path as [s|].
  - destruct (PyStr.truthy s) eqn:Hs.
    + apply truthy_iff in Hs. rewrite elem_of_union, elem_of_singleton. split.
      * intros [Hp | ->]; [by left | right; by exists s].
      * intros [Hp | (s' & [= <-] & _ & ->)]; [by left | by right].
    + assert (s = "") as -> by by destruct s. split; [by left |].
      by intros [Hp | (s' & [= <-] & Hne & _)].
  - split; [by left | by intros [Hp | (s' & [=] & _)]].
Qed.

Lemma elem_of_add_both_paths changed_files diffs p :
  p ∈ add_both_paths changed_files diffs ↔
  p ∈ changed_files
  ∨ ∃ d, d ∈ diffs ∧ (side_path (a_path d) p ∨ side_path (b_path d) p).
Proof.
  unfold add_both_paths.
  apply (foldl_union_iff _ (λ d p, side_path (a_path d) p ∨ side_path (b_path d) p)).
  intros acc d x.
  rewrite !elem_of_add_path. tauto.
Qed.

Lemma elem_of_add_a_paths changed_files diffs p :
  p ∈ add_a_paths changed_files diffs ↔
  p ∈ changed_files ∨ ∃ d, d ∈ diffs ∧ side_path (a_path d) p.
Proof.
  unfold add_a_paths. apply (foldl_union_iff _ (λ d p, side_path (a_path d) p)).
  intros acc d x.
  by rewrite elem_of_add_path.
Qed.

Lemma elem_of_add_untracked (changed_files : gset Path) (files : list string) p :
  p ∈ foldl (λ changed_files file_path, changed_files ∪ {[of_string file_path]})
            changed_files files
  ↔ p ∈ changed_files ∨ ∃ s, s ∈ files ∧ p = of_string s.
Proof.
  apply (foldl_union_iff _ (λ s p, p = of_string s)). intros acc s x.
  by rewrite elem_of_union, elem_of_singleton.
Qed.

Lemma elem_of_python_files changed_files p :
  p ∈ python_files changed_files ↔ suffix p = ".py" ∧ p ∈ changed_files.
Proof. unfold python_files. by rewrite elem_of_filter. Qed.

(** X12: when both diffs can be computed, [get_changed_files] returns
    the paths with suffix [.py] among: both sides of the staged diff if
    staged changes are included, both sides of the unstaged diff if
    unstaged changes are included, and the untracked files if those are
    included; with all three flags off the result is empty. *)
Theorem get_changed_files_iff base include_untracked include_staged include_unstaged
    staged unstaged :
  index_diff repo (Some base) = Returns staged →
  index_diff repo None = Returns unstaged →
  ∃ r, get_changed_files repo base include_untracked include_staged include_unstaged
       = Returns r
       ∧ ∀ p, p ∈ r ↔
           suffix p = ".py"
           ∧ ((include_staged = true
               ∧ ∃ d, d ∈ staged ∧ (side_path (a_path d) p ∨ side_path (b_path d) p))
              ∨ (include_unstaged = true
                 ∧ ∃ d, d ∈ unstaged ∧ (side_path (a_path d) p ∨ side_path (b_path d) p))
              ∨ (include_untracked = true
                 ∧ ∃ s, s ∈ untracked_files repo ∧ p = of_string s)).
Proof.
  intros Hstaged Hunstaged. unfold get_changed_files. rewrite Hstaged, Hunstaged.
  destruct include_staged, include_unstaged, include_untracked; simpl;
    (eexists; split; [reflexivity |]); intros p;
    rewrite elem_of_python_files, ?elem_of_add_untracked, ?elem_of_add_both_paths,
      ?elem_of_add_both_paths, elem_of_empty;
    naive_solver.
Qed.

(** X13: in a repository where [base] does not resolve ([BadName], as
    before the first commit), staged analysis falls back to the diff of
    the index against the working tree and takes only the [a_path]
    side of its entries; the call does not raise. *)
Theorem get_changed_files_without_base base include_untracked include_staged include_unstaged
    work :
  index_diff repo (Some base) = Raises BadName →
  index_diff repo None = Returns work →
  ∃ r, get_changed_files repo base include_untracked include_staged include_unstaged
       = Returns r
       ∧ ∀ p, p ∈ r ↔
           suffix p = ".py"
           ∧ ((include_staged = true ∧ ∃ d, d ∈ work ∧ side_path (a_path d) p)
              ∨ (include_unstaged = true
                 ∧ ∃ d, d ∈ work ∧ (side_path (a_path d) p ∨ side_path (b_path d) p))
              ∨ (include_untracked = true
                 ∧ ∃ s, s ∈ untracked_files repo ∧ p = of_string s)).
Proof.
  intros Hstaged Hwork. unfold get_changed_files. rewrite Hstaged, Hwork.
  destruct include_staged, include_unstaged, include_untracked; simpl;
    (eexists; split; [reflexivity |]); intros p;
    rewrite elem_of_python_files, ?elem_of_add_untracked, ?elem_of_add_both_paths,
      ?elem_of_add_a_paths, elem_of_empty;
    naive_solver.
Qed.

End analyzer_facts.

Section analyzer_results.
Import analyzer.
Variable repo : Repo.

Lemma side_path_reported_index other diffs d p :
  index_diff repo other = Returns diffs → d ∈ diffs →
  side_path (a_path d) p ∨ side_path (b_path d) p →
  ∃ s, reported repo s ∧ s ≠ "" ∧ p = of_string s.
Proof.
  intros Hdiff Hd [(s & Hs & Hne & ->) | (s & Hs & Hne & ->)];
    exists s; (split; [| done]); left; exists other, diffs, d; auto.
Qed.

Lemma untracked_reported s :
  s ∈ untracked_files repo → suffix (of_string s) = ".py" →
  ∃ s', reported repo s' ∧ s' ≠ "" ∧ of_string s = of_string s'.
Proof.
  intros Hs Hsuffix. exists s. split; [right; by left |]. split; [|done].
  intros ->. discriminate Hsuffix.
Qed.

Lemma get_changed_files_sound base include_untracked include_staged include_unstaged r p :
  get_changed_files repo base include_untracked include_staged include_unstaged
  = Returns r →
  p ∈ r →
  suffix p = ".py" ∧ ∃ s, reported repo s ∧ s ≠ "" ∧ p = of_string s.
Proof.
  unfold get_changed_files. intros Hr Hp.
  destruct (index_diff repo (Some base)) as [staged | e1] eqn:H1;
    destruct (index_diff repo None) as [work | e2] eqn:H2;
    destruct include_staged, include_unstaged, include_untracked;
    try destruct e1; simpl in Hr; try discriminate Hr;
    injection Hr as <-; apply elem_of_python_files in Hp as [Hsuffix Hp];
    (split; [done |]);
    rewrite ?elem_of_add_untracked, ?elem_of_add_both_paths, ?elem_of_add_a_paths,
      ?elem_of_add_both_paths, elem_of_empty in Hp;
    repeat match goal with
           | H : _ ∨ _ |- _ => destruct H
           | H : ∃ _, _ |- _ => destruct H
           | H : _ ∧ _ |- _ => destruct H
           | H : False |- _ => destruct H
           end;
    subst;
    first [ by apply untracked_reported
          | by (eapply (side_path_reported_index _ _ _ _ H1); eauto)
          | by (eapply (side_path_reported_index _ _ _ _ H2); eauto) ].
Qed.

Lemma get_changed_files_since_commit_iff commit_sha diffs :
  commit_diff_HEAD repo commit_sha = Returns diffs →
  ∃ r, get_changed_files_since_commit repo commit_sha = Returns r
       ∧ ∀ p, p ∈ r ↔
           suffix p = ".py"
           ∧ ∃ d, d ∈ diffs ∧ (side_path (a_path d) p ∨ side_path (b_path d) p).
Proof.
  intros Hdiff. unfold get_changed_files_since_commit. rewrite Hdiff.
  eexists. split; [reflexivity |]. intros p.
  rewrite elem_of_python_files, elem_of_add_both_paths, elem_of_empty. naive_solver.
Qed.

Lemma get_changed_files_between_branches_iff base_branch target_branch text :
  git_diff_name_only repo (base_branch +:+ "..." +:+ target_branch) = Returns text →
  ∃ r, get_changed_files_between_branches repo base_branch target_branch = Returns r
       ∧ ∀ p, p ∈ r ↔
           suffix p = ".py"
           ∧ ∃ line, line ∈ PyStr.split text "010"%char ∧ line ≠ "" ∧ p = of_string line.
Proof.
  intros Hdiff. unfold get_changed_files_between_branches. rewrite Hdiff.
  eexists. split; [reflexivity |]. intros p.
  rewrite elem_of_python_files, elem_of_list_to_set, list_elem_of_fmap.
  setoid_rewrite list_elem_of_filter. setoid_rewrite truthy_iff. naive_solver.
Qed.

(** X14: comparing with a commit returns the [.py] paths on either side
    of the commit's diff against [HEAD] (so a renamed or deleted file is
    reported under its old name too) and turns [BadName] into
    [ValueError]; comparing branches returns the [.py] paths among the
    non-empty lines of the name-only diff and turns [GitCommandError]
    into [ValueError]. *)
Theorem commit_and_branch_comparisons :
  (∀ commit_sha diffs,
     commit_diff_HEAD repo commit_sha = Returns diffs →
     ∃ r, get_changed_files_since_commit repo commit_sha = Returns r
          ∧ ∀ p, p ∈ r ↔
              suffix p = ".py"
              ∧ ∃ d, d ∈ diffs ∧ (side_path (a_path d) p ∨ side_path (b_path d) p))
  ∧ (∀ commit_sha,
       commit_diff_HEAD repo commit_sha = Raises BadName →
       get_changed_files_since_commit repo commit_sha = Raises ValueError)
  ∧ (∀ base_branch target_branch text,
       git_diff_name_only repo (base_branch +:+ "..." +:+ target_branch) = Returns text →
       ∃ r, get_changed_files_between_branches repo base_branch target_branch = Returns r
            ∧ ∀ p, p ∈ r ↔
                suffix p = ".py"
                ∧ ∃ line, line ∈ PyStr.split text "010"%char ∧ line ≠ ""
                          ∧ p = of_string line)
  ∧ (∀ base_branch target_branch,
       git_diff_name_only repo (base_branch +:+ "..." +:+ target_branch)
       = Raises GitCommandError →
       get_changed_files_between_branches repo base_branch target_branch
       = Raises ValueError).
Proof.
  split; [apply get_changed_files_since_commit_iff |].
  split; [intros sha H; unfold get_changed_files_since_commit; by rewrite H |].
  split; [apply get_changed_files_between_branches_iff |].
  intros b t H. unfold get_changed_files_between_branches. by rewrite H.
Qed.

(** Whatever analysis produced it, a returned change set holds only
    names the repository reported. *)
Lemma analyzer_results_reported r p :
  (∃ base include_untracked include_staged include_unstaged,
     get_changed_files repo base include_untracked include_staged include_unstaged
     = Returns r)
  ∨ (∃ commit_sha, get_changed_files_since_commit repo commit_sha = Returns r)
  ∨ (∃ base_branch target_branch,
       get_changed_files_between_branches repo base_branch target_branch = Returns r) →
  p ∈ r →
  suffix p = ".py" ∧ ∃ s, reported repo s ∧ s ≠ "" ∧ p = of_string s.
Proof.
  intros [(base & iu & ist & ius & Hr) | [(sha & Hr) | (b & t & Hr)]] Hp.
  - by apply (get_changed_files_sound base iu ist ius r).
  - unfold get_changed_files_since_commit in Hr.
    destruct (commit_diff_HEAD repo sha) as [diffs | []] eqn:Hdiff; try discriminate Hr.
    destruct (get_changed_files_since_commit_iff sha diffs Hdiff) as (r' & Hr' & Hiff).
    unfold get_changed_files_since_commit in Hr'. rewrite Hdiff in Hr'.
    rewrite Hr' in Hr. injection Hr as ->.
    apply Hiff in Hp as (Hsuffix & d & Hd & Hside). split; [done |].
    destruct Hside as [(s & Hs & Hne & ->) | (s & Hs & Hne & ->)];
      exists s; (split; [| done]); right; right; left; exists sha, diffs, d; auto.
  - unfold get_changed_files_between_branches in Hr.
    destruct (git_diff_name_only repo (b +:+ "..." +:+ t)) as [text | []] eqn:Hdiff;
      try discriminate Hr.
    destruct (get_changed_files_between_branches_iff b t text Hdiff) as (r' & Hr' & Hiff).
    unfold get_changed_files_between_branches in Hr'. rewrite Hdiff in Hr'.
    rewrite Hr' in Hr. injection Hr as ->.
    apply Hiff in Hp as (Hsuffix & line & Hline & Hne & ->). split; [done |].
    exists line. split; [| done]. right; right; right. by exists (b +:+ "..." +:+ t), text.
Qed.

End analyzer_results.

Lemma get_changed_files_iff_witness :
  ∃ r, analyzer.get_changed_files sample_repo "HEAD" true true true = analyzer.Returns r
       ∧ ∀ p, p ∈ r ↔
           suffix p = ".py"
           ∧ ((true = true
               ∧ ∃ d, d ∈ [analyzer.mkDiff (Some "src/pkg/foo.py") (Some "src/pkg/foo.py");
                           analyzer.mkDiff (Some "README.md") (Some "README.md")]
                      ∧ (analyzer.side_path (analyzer.a_path d) p
                         ∨ analyzer.side_path (analyzer.b_path d) p))
              ∨ (true = true
                 ∧ ∃ d, d ∈ [analyzer.mkDiff (Some "tests/test_new.py") None]
                        ∧ (analyzer.side_path (analyzer.a_path d) p
                           ∨ analyzer.side_path (analyzer.b_path d) p))
              ∨ (true = true
                 ∧ ∃ s, s ∈ analyzer.untracked_files sample_repo ∧ p = of_string s)).
Proof.
  apply (get_changed_files_iff sample_repo "HEAD" true true true); vm_refl.
Defined.

Example get_changed_files_sample :
  analyzer.get_changed_files sample_repo "HEAD" true true true
  = analyzer.Returns {[ of_string "src/pkg/foo.py"; of_string "tests/test_new.py";
                        of_string "src/pkg/new.py" ]}.
Proof. vm_refl. Qed.

Lemma get_changed_files_without_base_witness :
  ∃ r, analyzer.get_changed_files sample_repo "main" false true false = analyzer.Returns r
       ∧ ∀ p, p ∈ r ↔
           suffix p = ".py"
           ∧ ((true = true
               ∧ ∃ d, d ∈ [analyzer.mkDiff (Some "tests/test_new.py") None]
                      ∧ analyzer.side_path (analyzer.a_path d) p)
              ∨ (false = true
                 ∧ ∃ d, d ∈ [analyzer.mkDiff (Some "tests/test_new.py") None]
                        ∧ (analyzer.side_path (analyzer.a_path d) p
                           ∨ analyzer.side_path (analyzer.b_path d) p))
              ∨ (false = true
                 ∧ ∃ s, s ∈ analyzer.untracked_files sample_repo ∧ p = of_string s)).
Proof.
  apply (get_changed_files_without_base sample_repo "main" false true false); vm_refl.
Defined.

Lemma commit_and_branch_comparisons_witness :
  analyzer.get_changed_files_since_commit sample_repo "zzz" = analyzer.Raises analyzer.ValueError
  ∧ analyzer.get_changed_files_between_branches sample_repo "nowhere" "HEAD"
    = analyzer.Raises analyzer.ValueError
  ∧ (∃ r, analyzer.get_changed_files_since_commit sample_repo "abc123" = analyzer.Returns r
          ∧ ∀ p, p ∈ r ↔
              suffix p = ".py"
              ∧ ∃ d, d ∈ [analyzer.mkDiff (Some "src/pkg/old.py") (Some "src/pkg/foo.py")]
                     ∧ (analyzer.side_path (analyzer.a_path d) p
                        ∨ analyzer.side_path (analyzer.b_path d) p))
  ∧ ∃ r, analyzer.get_changed_files_between_branches sample_repo "main" "HEAD"
         = analyzer.Returns r
         ∧ ∀ p, p ∈ r ↔
             suffix p = ".py"
             ∧ ∃ line,
                 line ∈ PyStr.split
                          ("src/pkg/foo.py" +:+ String "010" ("README.md" +:+ String "010" ""))
                          "010"%char
                 ∧ line ≠ "" ∧ p = of_string line.
Proof.
  pose proof (commit_and_branch_comparisons sample_repo) as (Hcommit & Hbad & Hbranch & Hcmd).
  split; [apply Hbad; vm_refl |].
  split; [apply Hcmd; vm_refl |].
  split; [apply Hcommit; vm_refl | apply Hbranch; vm_refl].
Defined.

(** * The tool's default wiring *)

Lemma under_root_anchored self rel : anchored (under_root self rel) = anchored (project_root self).
Proof. done. Qed.

(** When no changed file lies below the project root, nothing resolves:
    selection is by name only, and only directly in the test
    directories. *)
Lemma find_affected_tests_outside_root self fs changed tests r :
  (∀ f, f ∈ changed → ∀ rel, f ≠ under_root self rel) →
  find_affected_tests self fs changed (Some tests) = Ok r →
  changed_module_roots self changed = ∅
  ∧ ∀ x, x ∈ r →
      (x ∈ changed ∧ _is_test_file x = true)
      ∨ (x ∈ tests
         ∧ ∃ f test_dir,
             f ∈ changed ∧ _is_test_file f = false ∧ test_dir ∈ ["tests"; "test"]
             ∧ (x = under_root self [test_dir; "test_" +:+ stem f +:+ ".py"]
                ∨ x = under_root self [test_dir; stem f +:+ "_test.py"])).
Proof.
  intros Hout Hr.
  assert (Hroots : changed_module_roots self changed = ∅).
  { apply set_eq. intros y. rewrite changed_module_roots_iff. split.
    - intros (f & m & Hf & Hm & _). by rewrite (get_module_path_outside self f (Hout f Hf)) in Hm.
    - intros Hy. by apply not_elem_of_empty in Hy. }
  split; [done |]. intros x Hx.
  apply (find_affected_tests_iff self fs changed tests r Hr) in Hx.
  destruct Hx as [Hx | [(f & Hf & Hnot & Hc & Ht) | (_ & imports & _ & Hne)]].
  - by left.
  - right. split; [done |].
    destruct (direct_candidates_only self fs f x (Hout f Hf) Hc)
      as (d & pattern & Hd & Hpat & ->).
    exists f, d. split; [done |]. split; [done |]. split; [done |].
    rewrite !elem_of_cons in Hpat. destruct Hpat as [-> | [-> | Hnil]];
      [by left | by right | by apply elem_of_nil in Hnil].
  - destruct Hne. rewrite Hroots. apply set_eq. intros y.
    rewrite elem_of_intersection. split; [by intros [_ Hy] |].
    intros Hy. by apply not_elem_of_empty in Hy.
Qed.

(** X15: the tool as the runner wires it: the mapper is built without a
    project root, so its root is [os.getcwd()], an anchored path, while
    the analyzer returns the repository's names as relative paths.  Then
    no changed file resolves to a module, import analysis selects
    nothing, and a discovered test file is selected only when it sits
    directly in [tests/] or [test/] under the name [test_<stem>.py] or
    [<stem>_test.py] of a changed file. *)
Theorem default_wiring_selects_by_name_only repo cwd fs changed r :
  PyStr.startswith cwd "/" = true →
  (∀ s, analyzer.reported repo s → PyStr.startswith s "/" = false) →
  (∃ base include_untracked include_staged include_unstaged,
     analyzer.get_changed_files repo base include_untracked include_staged include_unstaged
     = analyzer.Returns changed)
  ∨ (∃ commit_sha,
       analyzer.get_changed_files_since_commit repo commit_sha = analyzer.Returns changed)
  ∨ (∃ base_branch target_branch,
       analyzer.get_changed_files_between_branches repo base_branch target_branch
       = analyzer.Returns changed) →
  find_affected_tests (TestMapper_init cwd None) fs changed None = Ok r →
  (∀ f, f ∈ changed → get_module_path (TestMapper_init cwd None) f = None)
  ∧ changed_module_roots (TestMapper_init cwd None) changed = ∅
  ∧ ∀ x, x ∈ r →
      (x ∈ changed ∧ _is_test_file x = true)
      ∨ (x ∈ find_test_files (TestMapper_init cwd None) fs None
         ∧ ∃ f test_dir,
             f ∈ changed ∧ _is_test_file f = false ∧ test_dir ∈ ["tests"; "test"]
             ∧ (x = under_root (TestMapper_init cwd None)
                      [test_dir; "test_" +:+ stem f +:+ ".py"]
                ∨ x = under_root (TestMapper_init cwd None)
                        [test_dir; stem f +:+ "_test.py"])).
Proof.
  intros Hcwd Hrelative Hchanged Hr.
  assert (Hout : ∀ f, f ∈ changed → ∀ rel, f ≠ under_root (TestMapper_init cwd None) rel).
  { intros f Hf rel ->.
    destruct (analyzer_results_reported repo changed _ Hchanged Hf) as (_ & s & Hs & _ & Heq).
    apply (f_equal anchored) in Heq. rewrite under_root_anchored in Heq.
    change (PyStr.startswith cwd "/" = PyStr.startswith s "/") in Heq.
    rewrite Hcwd, (Hrelative s Hs) in Heq. discriminate Heq. }
  split; [intros f Hf; by apply get_module_path_outside, Hout |].
  rewrite find_affected_tests_discovery in Hr.
  by apply (find_affected_tests_outside_root _ fs changed _ r).
Qed.

Lemma sample_repo_reports_relative_names s :
  analyzer.reported sample_repo s → PyStr.startswith s "/" = false.
Proof.
  intros [(other & diffs & d & Hdiff & Hd & Hs)
         | [Hs | [(sha & diffs & d & Hdiff & Hd & Hs) | (revisions & text & Hdiff & Hs)]]].
  - simpl in Hdiff. repeat case_bool_decide; try discriminate Hdiff;
      injection Hdiff as <-;
      repeat (apply elem_of_cons in Hd as [-> | Hd]);
      try (by apply elem_of_nil in Hd);
      by destruct Hs as [[= <-] | [= <-]].
  - simpl in Hs. repeat (apply elem_of_cons in Hs as [-> | Hs]);
      [done | done | by apply elem_of_nil in Hs].
  - simpl in Hdiff. case_bool_decide; try discriminate Hdiff.
    injection Hdiff as <-.
    repeat (apply elem_of_cons in Hd as [-> | Hd]);
      try (by apply elem_of_nil in Hd);
      by destruct Hs as [[= <-] | [= <-]].
  - simpl in Hdiff. case_bool_decide; try discriminate Hdiff.
    injection Hdiff as <-. vm_compute in Hs.
    repeat (apply elem_of_cons in Hs as [-> | Hs]);
      [done | done | done | by apply elem_of_nil in Hs].
Qed.

Lemma default_wiring_selects_by_name_only_witness :
  (∀ f, f ∈ ({[ of_string "src/pkg/foo.py"; of_string "tests/test_new.py";
                of_string "src/pkg/new.py" ]} : gset Path) →
        get_module_path (TestMapper_init "/work" None) f = None)
  ∧ changed_module_roots (TestMapper_init "/work" None)
      {[ of_string "src/pkg/foo.py"; of_string "tests/test_new.py";
         of_string "src/pkg/new.py" ]} = ∅
  ∧ ∀ x, x ∈ ({[ of_string "tests/test_new.py"; of_string "/work/tests/test_foo.py" ]}
               : gset Path) →
      (x ∈ ({[ of_string "src/pkg/foo.py"; of_string "tests/test_new.py";
               of_string "src/pkg/new.py" ]} : gset Path)
       ∧ _is_test_file x = true)
      ∨ (x ∈ find_test_files (TestMapper_init "/work" None)
               (one_file "/work/tests/test_foo.py"
                  (Source (sample_module [ImportFrom (Some "pkg.foo") [mkAlias "f" None] 0])))
               None
         ∧ ∃ f test_dir,
             f ∈ ({[ of_string "src/pkg/foo.py"; of_string "tests/test_new.py";
                     of_string "src/pkg/new.py" ]} : gset Path)
             ∧ _is_test_file f = false ∧ test_dir ∈ ["tests"; "test"]
             ∧ (x = under_root (TestMapper_init "/work" None)
                      [test_dir; "test_" +:+ stem f +:+ ".py"]
                ∨ x = under_root (TestMapper_init "/work" None)
                        [test_dir; stem f +:+ "_test.py"])).
Proof.
  apply (default_wiring_selects_by_name_only sample_repo "/work"
           (one_file "/work/tests/test_foo.py"
              (Source (sample_module [ImportFrom (Some "pkg.foo") [mkAlias "f" None] 0])))).
  - reflexivity.
  - apply sample_repo_reports_relative_names.
  - left. exists "HEAD", true, true, true. vm_refl.
  - vm_refl.
Defined.
